(** * Shape diary: sentiment scoring, prompt selection and the
      draft/confirm image workflow of [shapediary_app.py]

    The development embeds the Python module function by function.

    - Python [str] values are [string]s, and [x in y] on two strings is
      [str_in] below.
    - Python [int]s are [Z].
    - The score returned by [analyze_sentiment] is a Python [float] obtained
      by true division of two integers.  It is represented here by the exact
      rational it rounds ([Q]); the literals [0.5], [0.7] and [0.4] are the
      rationals [1/2], [7/10] and [4/10].  Section [Binary64] relates this
      to the computation on binary64 values.
    - The module-level dictionary [word_dict] is an insertion-ordered
      association list with unique keys, as a Python [dict] is.
    - Database tables are finite maps from primary key to row, files are a
      finite map from path to bytes. *)

From Stdlib Require Import ZArith QArith Qabs Lqa String Ascii List.
From Stdlib Require Import DecimalString DecimalZ DecimalPos.
From stdpp Require Import gmap strings list fin_maps.
From stdpp Require Import sorting.
Import ListNotations.

Open Scope string_scope.
Open Scope Z_scope.

(** ** Python strings *)

(** [str_in word text] is Python's [word in text]: [word] occurs at some
    offset of [text]. *)
Fixpoint str_in (word text : string) : bool :=
  String.prefix word text ||
  match text with
  | EmptyString => false
  | String _ rest => str_in word rest
  end.

(** Truthiness of a string ([if s:] / [if not s:]). *)
Definition str_truthy (s : string) : bool :=
  match s with
  | EmptyString => false
  | String _ _ => true
  end.

(** [str(n)] and the [{n}] of an f-string for an integer. *)
Definition str_of_int (n : Z) : string :=
  NilZero.string_of_int (Z.to_int n).

(** ** The lexicon: [word_dict] (lines 38-46) *)

(** A row as [csv.DictReader] yields it: the first column is always a
    string, a missing second column is [None]. *)
Record CsvRow := mkCsvRow {
  row_word : string;
  row_category : option string
}.

Definition Dict := list (string * option string).

(** [d[k] = v] on an insertion-ordered dictionary. *)
Fixpoint dict_setitem (d : Dict) (k : string) (v : option string) : Dict :=
  match d with
  | [] => [(k, v)]
  | (k', v') :: d' =>
      if String.eqb k' k then (k', v) :: d'
      else (k', v') :: dict_setitem d' k v
  end.

Fixpoint dict_get (d : Dict) (k : string) : option (option string) :=
  match d with
  | [] => None
  | (k', v') :: d' => if String.eqb k' k then Some v' else dict_get d' k
  end.

(** The body of the loading loop: a row with an empty word is skipped,
    every other row is stored, overriding an earlier row with the same
    word. *)
Definition load_step (d : Dict) (row : CsvRow) : Dict :=
  if negb (str_truthy (row_word row)) then d
  else dict_setitem d (row_word row) (row_category row).

Definition load_word_dict (rows : list CsvRow) : Dict :=
  fold_left load_step rows [].

(** ** Sentiment Scorer: [analyze_sentiment] (lines 71-83) *)

(** [category == 'positive'] where [category] may be [None]. *)
Definition category_eq (category : option string) (lit : string) : bool :=
  match category with
  | Some c => String.eqb c lit
  | None => false
  end.

(** One iteration of the loop body over [(word, category)]. *)
Definition count_step (text : string) (counts : Z * Z)
    (item : string * option string) : Z * Z :=
  let '(pos_count, neg_count) := counts in
  let '(word, category) := item in
  if str_in word text then
    if category_eq category "positive" then (pos_count + 1, neg_count)
    else (pos_count, neg_count + 1)
  else (pos_count, neg_count).

(** The two counters after the loop. *)
Definition sentiment_counts (word_dict : Dict) (text : string) : Z * Z :=
  fold_left (count_step text) word_dict (0, 0).

Definition analyze_sentiment (word_dict : Dict) (text : string) : Q :=
  let '(pos_count, neg_count) := sentiment_counts word_dict text in
  let total := pos_count + neg_count in
  if total =? 0 then 1 # 2
  else pos_count # Z.to_pos total.

(** ** Prompt Generator: [generate_prompt] (lines 86-104) *)

Definition positive_prompt : string :=
  "A bright yellow and red or orange and lightgreen gradation heart, white background, minimalistic".
Definition negative_prompt : string :=
  "A darkblue and darkgreen or darkred and grey gradation star, white background, minimalistic".
Definition neutral_prompt : string :=
  "A grey and white and green or white and bluegreen gradation circle, white background, minimalistic".

Definition generate_prompt (sentiment_score : Q) : string :=
  let sentiment :=
    if Qle_bool (7 # 10) sentiment_score then "positive"
    else if Qle_bool (4 # 10) sentiment_score then "neutral"
    else "negative" in
  if String.eqb sentiment "positive" then positive_prompt
  else if String.eqb sentiment "negative" then negative_prompt
  else neutral_prompt.

(** ** The same two functions on binary64 values *)

(** The interpreter computes with binary64 floats.  With [fl] standing for
    rounding a rational to the nearest binary64 value (values are kept as
    the rationals they denote), [pos_count / total] is [fl] of the exact
    quotient, [0.5] is exact, and the literals [0.7] and [0.4] are
    [fl (7/10)] and [fl (4/10)]. *)
Definition analyze_sentiment_binary64 (fl : Q -> Q) (word_dict : Dict)
    (text : string) : Q :=
  let '(pos_count, neg_count) := sentiment_counts word_dict text in
  let total := pos_count + neg_count in
  if total =? 0 then 1 # 2
  else fl (pos_count # Z.to_pos total).

Definition generate_prompt_binary64 (fl : Q -> Q) (sentiment_score : Q) : string :=
  let sentiment :=
    if Qle_bool (fl (7 # 10)) sentiment_score then "positive"
    else if Qle_bool (fl (4 # 10)) sentiment_score then "neutral"
    else "negative" in
  if String.eqb sentiment "positive" then positive_prompt
  else if String.eqb sentiment "negative" then negative_prompt
  else neutral_prompt.

(** ** [int(s)] on the strings the application receives *)

Definition is_space (c : ascii) : bool :=
  let n := N_of_ascii c in
  ((9 <=? n) && (n <=? 13))%N || (n =? 32)%N.

Definition digit_of_ascii (c : ascii) : option Z :=
  let n := Z.of_N (N_of_ascii c) in
  if (48 <=? n) && (n <=? 57) then Some (n - 48) else None.

Fixpoint lstrip (s : string) : string :=
  match s with
  | String c rest => if is_space c then lstrip rest else s
  | EmptyString => EmptyString
  end.

(** The value of a run of decimal digits, optionally followed by white
    space only; [seen] tells whether a digit has been read. *)
Fixpoint digits_value (s : string) (seen : bool) (acc : Z) : option Z :=
  match s with
  | EmptyString => if seen then Some acc else None
  | String c rest =>
      match digit_of_ascii c with
      | Some d => digits_value rest true (10 * acc + d)
      | None =>
          if seen && is_space c && negb (str_truthy (lstrip rest))
          then Some acc else None
      end
  end.

(** Python's [int(s)] for an optionally signed run of ASCII digits with
    optional surrounding white space; [None] is [ValueError].  (Python also
    accepts digit-group underscores and non-ASCII digits, which no form of
    this application produces.) *)
Definition int_of_str (s : string) : option Z :=
  match lstrip s with
  | String "-" rest => Z.opp <$> digits_value rest false 0
  | String "+" rest => digits_value rest false 0
  | rest => digits_value rest false 0
  end.

(** ** The stored data (lines 49-66) *)

Module Post.
Record t := mk {
  id : Z;
  content : string;
  date_created : Z;
  user_id : Z;
  image_path : option string
}.
Definition with_image_path (path : option string) (p : t) : t :=
  mk (id p) (content p) (date_created p) (user_id p) path.
End Post.

Module User.
Record t := mk {
  id : Z;
  username : string;
  password : string
}.
End User.

(** The two tables with their primary-key sequences. *)
Record Tables := mkTables {
  posts : gmap Z Post.t;
  users : gmap Z User.t;
  post_seq : Z;
  user_seq : Z
}.

Definition set_posts (f : gmap Z Post.t -> gmap Z Post.t) (t : Tables) : Tables :=
  mkTables (f (posts t)) (users t) (post_seq t) (user_seq t).
Definition set_users (f : gmap Z User.t -> gmap Z User.t) (t : Tables) : Tables :=
  mkTables (posts t) (f (users t)) (post_seq t) (user_seq t).

(** Everything that outlives a request: the committed tables, the log of
    committed snapshots (newest first), the files under [static/], the
    flashed messages and the UTC clock. *)
Record World := mkWorld {
  db : Tables;
  commit_log : list Tables;
  files : gmap string (list Byte.byte);
  flashes : list string;
  clock : Z
}.

(** A [Post(...)] object built during a request.  Its [id] is [None] until
    it is flushed; [content] is whatever Python value was passed. *)
Record PostObj := mkPostObj {
  o_id : option Z;
  o_content : option string;
  o_date_created : option Z;
  o_user_id : Z;
  o_added : bool
}.

(** The request-scoped ORM session: the rows as the open transaction sees
    them, the objects created in the request, the users marked for
    deletion. *)
Record Session := mkSession {
  working : Tables;
  new_posts : list PostObj;
  deleted_users : list Z
}.

Record St := mkSt {
  world : World;
  sess : Session
}.

Definition fresh_session (w : World) : Session :=
  mkSession (db w) [] [].

(** ** Requests, responses and exceptions *)

Record Request := mkRequest {
  method : string;
  args : list (string * string);
  form : list (string * string);
  session_user_id : option Z
}.

Inductive PyVal :=
| VNone
| VStr (s : string)
| VInt (n : Z).

Inductive Response :=
| Redirect (endpoint : string) (values : list (string * string))
| Render (template : string) (context : list (string * PyVal))
| ErrorPage (code : Z) (reason : string).

Inductive Exn :=
| HTTPException (code : Z) (name : string)
| Raised (name : string).

Inductive Res (A : Type) :=
| Ok (a : A)
| Err (e : Exn).
Arguments Ok {A} a.
Arguments Err {A} e.

(** ** The request monad: state plus exceptions *)

Definition M (A : Type) : Type := St -> Res A * St.

Definition ret {A} (a : A) : M A := fun st => (Ok a, st).
Definition bind {A B} (m : M A) (k : A -> M B) : M B :=
  fun st =>
    match m st with
    | (Ok a, st') => k a st'
    | (Err e, st') => (Err e, st')
    end.
Definition raise {A} (e : Exn) : M A := fun st => (Err e, st).
Definition gets {A} (f : St -> A) : M A := fun st => (Ok (f st), st).
Definition modify (f : St -> St) : M unit := fun st => (Ok tt, f st).

Declare Scope request_scope.
Delimit Scope request_scope with request.
Notation "x <- c1 ;; c2" := (bind c1 (fun x => c2))
  (at level 100, c1 at next level, right associativity) : request_scope.
Notation "c1 ;; c2" := (bind c1 (fun _ => c2))
  (at level 100, right associativity) : request_scope.
Open Scope request_scope.

Definition set_world (f : World -> World) (st : St) : St :=
  mkSt (f (world st)) (sess st).
Definition set_sess (f : Session -> Session) (st : St) : St :=
  mkSt (world st) (f (sess st)).
Definition set_working (f : Tables -> Tables) (s : Session) : Session :=
  mkSession (f (working s)) (new_posts s) (deleted_users s).
Definition set_files (f : gmap string (list Byte.byte) -> gmap string (list Byte.byte))
    (w : World) : World :=
  mkWorld (db w) (commit_log w) (f (files w)) (flashes w) (clock w).

(** ** Request data *)

Fixpoint multidict_get (d : list (string * string)) (k : string) : option string :=
  match d with
  | [] => None
  | (k', v) :: d' => if String.eqb k' k then Some v else multidict_get d' k
  end.

(** [request.form[k]]: a missing key is werkzeug's [BadRequestKeyError]. *)
Definition form_item (req : Request) (k : string) : M string :=
  match multidict_get (form req) k with
  | Some v => ret v
  | None => raise (HTTPException 400 "BadRequestKeyError")
  end.

(** [int(s)]. *)
Definition py_int (s : string) : M Z :=
  match int_of_str s with
  | Some n => ret n
  | None => raise (Raised "ValueError")
  end.

(** Truthiness of a value that is a string or [None]. *)
Definition opt_truthy (v : option string) : bool :=
  match v with
  | Some s => str_truthy s
  | None => false
  end.

Definition val_of_opt (v : option string) : PyVal :=
  match v with
  | Some s => VStr s
  | None => VNone
  end.

(** ** Files and flashed messages *)

(** [with open(path, "wb") as f: f.write(data)]; the write is taken to
    succeed (the directory [static/] exists and can be written). *)
Definition write_file (path : string) (data : list Byte.byte) : M unit :=
  modify (set_world (set_files (fun fs => <[path := data]> fs))).

(** [os.rename(src, dst)]: [dst] is replaced; a missing [src] raises. *)
Definition os_rename (src dst : string) : M unit :=
  fs <- gets (fun st => files (world st)) ;;
  match fs !! src with
  | None => raise (Raised "FileNotFoundError")
  | Some data =>
      modify (set_world (set_files (fun fs => <[dst := data]> (delete src fs))))
  end.

Definition flash (message : string) : M unit :=
  modify (set_world (fun w =>
    mkWorld (db w) (commit_log w) (files w) (flashes w ++ [message]) (clock w))).

(** ** The ORM session *)

(** [Post.query.get(pid)] with an integer key. *)
Definition Post_query_get (pid : Z) : M (option Post.t) :=
  gets (fun st => posts (working (sess st)) !! pid).

(** [Post.query.get(s)] with the key still a string: the store parses it. *)
Definition Post_query_get_str (s : string) : M (option Post.t) :=
  match int_of_str s with
  | Some pid => Post_query_get pid
  | None => raise (Raised "DataError")
  end.

Definition Post_query_get_or_404 (pid : Z) : M Post.t :=
  p <- Post_query_get pid ;;
  match p with
  | Some post => ret post
  | None => raise (HTTPException 404 "NotFound")
  end.

(** [Post(content=..., user_id=...)]: a new transient object; the result is
    the reference to it. *)
Definition Post_new (content : option string) (date_created : option Z)
    (user_id : Z) : M nat :=
  n <- gets (fun st => length (new_posts (sess st))) ;;
  modify (set_sess (fun s =>
    mkSession (working s)
      (new_posts s ++ [mkPostObj None content date_created user_id false])
      (deleted_users s))) ;;
  ret n.

Definition mark_added (o : PostObj) : PostObj :=
  mkPostObj (o_id o) (o_content o) (o_date_created o) (o_user_id o) true.

(** [db.session.add(obj)]. *)
Definition session_add (ref : nat) : M unit :=
  modify (set_sess (fun s =>
    mkSession (working s)
      (alter mark_added ref (new_posts s))
      (deleted_users s))).

(** [obj.id]. *)
Definition attr_id (ref : nat) : M (option Z) :=
  gets (fun st => o ← new_posts (sess st) !! ref; o_id o).

(** [post.image_path = path] on a loaded row. *)
Definition set_image_path (pid : Z) (path : string) : M unit :=
  modify (set_sess (set_working (set_posts
    (alter (Post.with_image_path (Some path)) pid)))).

(** [db.session.delete(post)]. *)
Definition session_delete_post (post : Post.t) : M unit :=
  modify (set_sess (set_working (set_posts (delete (Post.id post))))).

(** [Post.query.filter_by(user_id=uid).delete()]: the bulk DELETE runs in
    the open transaction at once. *)
Definition Post_query_filter_by_user_delete (uid : Z) : M unit :=
  modify (set_sess (set_working (set_posts
    (filter (fun kv : Z * Post.t => Post.user_id kv.2 ≠ uid))))).

(** [db.session.delete(user)]: carried out at the next flush. *)
Definition session_delete_user (user : User.t) : M unit :=
  modify (set_sess (fun s =>
    mkSession (working s) (new_posts s) (deleted_users s ++ [User.id user]))).

(** Flushing the pending INSERTs.  [content] is NOT NULL; the primary key
    comes from the sequence and [date_created] defaults to [utc_now()]. *)
Fixpoint flush_new (now : Z) (objs : list PostObj) (t : Tables)
    : option (list PostObj * Tables) :=
  match objs with
  | [] => Some ([], t)
  | o :: rest =>
      if o_added o && bool_decide (o_id o = None) then
        match o_content o with
        | None => None
        | Some c =>
            let pid := post_seq t in
            let row := Post.mk pid c (default now (o_date_created o))
                         (o_user_id o) None in
            let t' := mkTables (<[pid := row]> (posts t)) (users t)
                        (pid + 1) (user_seq t) in
            '(rest', t'') ← flush_new now rest t';
            Some (mkPostObj (Some pid) (o_content o) (o_date_created o)
                    (o_user_id o) true :: rest', t'')
        end
      else
        '(rest', t') ← flush_new now rest t;
        Some (o :: rest', t')
  end.

(** Does some post still reference the user?  Deleting such a user would
    null the posts' [user_id], which is NOT NULL. *)
Definition user_has_posts (uid : Z) (t : Tables) : bool :=
  bool_decide (filter (fun kv : Z * Post.t => Post.user_id kv.2 = uid) (posts t) ≠ ∅).

(** Flushing the pending user DELETEs. *)
Fixpoint flush_deleted (uids : list Z) (t : Tables) : option Tables :=
  match uids with
  | [] => Some t
  | uid :: rest =>
      if user_has_posts uid t then None
      else flush_deleted rest (set_users (delete uid) t)
  end.

(** [db.session.commit()]: flush, then make the transaction's rows the
    committed ones.  A constraint violation raises [IntegrityError] and
    commits nothing; the sequence is then left as it was, where PostgreSQL
    would have used up one value. *)
Definition session_commit : M unit :=
  fun st =>
    let s := sess st in
    let w := world st in
    match flush_new (clock w) (new_posts s) (working s) with
    | None => (Err (Raised "IntegrityError"), st)
    | Some (objs, t) =>
        match flush_deleted (deleted_users s) t with
        | None => (Err (Raised "IntegrityError"), st)
        | Some t' =>
            (Ok tt,
             mkSt (mkWorld t' (t' :: commit_log w) (files w) (flashes w) (clock w))
                  (mkSession t' objs []))
        end
    end.

(** ** The views *)

Section Views.

(** The lexicon loaded at start-up. *)
Variable word_dict : Dict.

(** The external image-generation capability behind [generate_image]:
    the PNG bytes of the picture it draws for a prompt, or [None] when
    the call (or the encoding) raises. *)
Variable text_to_image : string -> option (list Byte.byte).

(** [generate_image] (lines 106-128): every exception becomes [None]. *)
Definition generate_image (prompt : string) : option (list Byte.byte) :=
  text_to_image prompt.

(** [analyze_sentiment(content)] where [content] may be [None]: the first
    [word in None] raises [TypeError]; with an empty lexicon the loop body
    never runs. *)
Definition call_analyze_sentiment (content : option string) : M Q :=
  match content with
  | Some text => ret (analyze_sentiment word_dict text)
  | None =>
      match word_dict with
      | [] => ret (1 # 2)
      | _ :: _ => raise (Raised "TypeError")
      end
  end.

(** [if not image_bytes]: [None] and the empty byte string are falsy. *)
Definition bytes_truthy (b : option (list Byte.byte)) : option (list Byte.byte) :=
  match b with
  | Some (x :: l) => Some (x :: l)
  | _ => None
  end.

Definition tmp_path_of (uid : Z) : string :=
  "static/" ++ str_of_int uid ++ "_tmp.png".
Definition final_path_of (uid pid : Z) : string :=
  "static/" ++ str_of_int uid ++ "_" ++ str_of_int pid ++ ".png".

(** [@login_required]: the session's user id is resolved by [load_user];
    without a user the request is refused. *)
Definition load_user (user_id : Z) : M (option User.t) :=
  gets (fun st => users (working (sess st)) !! user_id).

Definition login_required (view : User.t -> Request -> M Response)
    (req : Request) : M Response :=
  match session_user_id req with
  | None => raise (HTTPException 401 "Unauthorized")
  | Some uid =>
      u <- load_user uid ;;
      match u with
      | None => raise (HTTPException 401 "Unauthorized")
      | Some current_user => view current_user req
      end
  end.

(** [@app.route(rule, methods=[...])]: a request with another method is
    refused before the view runs.  Flask serves HEAD wherever it serves
    GET. *)
Definition allowed_methods (methods : list string) : list string :=
  if bool_decide ("GET" ∈ methods) then "HEAD" :: methods else methods.

Definition route (methods : list string) (view : Request -> M Response)
    (req : Request) : M Response :=
  if bool_decide (method req ∈ allowed_methods methods) then view req
  else raise (HTTPException 405 "MethodNotAllowed").

(** [newimage] (lines 169-202). *)
Definition newimage_body (current_user : User.t) (req : Request) : M Response :=
  let post_id := multidict_get (args req) "post_id" in
  let content := multidict_get (args req) "content" in
  chosen <-
    (if opt_truthy post_id then
       (* truthy, hence a string *)
       post <- Post_query_get_str (default "" post_id) ;;
       match post with
       | None => raise (Raised "AttributeError")
       | Some post => ret (Some (Post.content post), val_of_opt post_id)
       end
     else
       let content := multidict_get (form req) "content" in
       post <- Post_new content None (User.id current_user) ;;
       session_add post ;;
       session_commit ;;
       post_id <- attr_id post ;;
       ret (content, from_option VInt VNone post_id)) ;;
  let '(content, post_id) := chosen in
  sentiment_score <- call_analyze_sentiment content ;;
  let prompt := generate_prompt sentiment_score in
  let image_bytes := generate_image prompt in
  match bytes_truthy image_bytes with
  | None =>
      flash "画像生成に失敗しました" ;;
      ret (Redirect "index" [])
  | Some data =>
      let image_path := tmp_path_of (User.id current_user) in
      write_file image_path data ;;
      ret (Render "newimage.html"
             [("image_path", VStr image_path);
              ("content", val_of_opt content);
              ("post_id", post_id)])
  end.

Definition newimage : Request -> M Response :=
  route ["GET"; "POST"] (login_required newimage_body).

(** [confirm_image] (lines 205-227). *)
Definition confirm_image_body (current_user : User.t) (req : Request) : M Response :=
  action <- form_item req "action" ;;
  if String.eqb action "redo" then
    content <- form_item req "content" ;;
    ret (Redirect "newimage" [("content", content)])
  else
    post_id_str <- form_item req "post_id" ;;
    post_id <- py_int post_id_str ;;
    post <- Post_query_get_or_404 post_id ;;
    let tmp_path := tmp_path_of (User.id current_user) in
    let final_path := final_path_of (User.id current_user) (Post.id post) in
    os_rename tmp_path final_path ;;
    set_image_path (Post.id post) final_path ;;
    session_commit ;;
    ret (Redirect "index" []).

Definition confirm_image : Request -> M Response :=
  route ["POST"] (login_required confirm_image_body).

(** [posts] (lines 283-300). *)
Definition posts_body (current_user : User.t) (req : Request) : M Response :=
  content <- form_item req "diary_entry" ;;
  let action := multidict_get (form req) "action" in
  if bool_decide (action = Some "generate") then
    ret (Render "redirect_to_newimage.html" [("content", VStr content)])
  else
    now <- gets (fun st => clock (world st)) ;;
    new_post <- Post_new (Some content) (Some now) (User.id current_user) ;;
    session_add new_post ;;
    session_commit ;;
    ret (Redirect "index" []).

Definition posts_view : Request -> M Response :=
  route ["POST"] (login_required posts_body).

(** [delete] (lines 310-319); [post_id] is the integer of the URL. *)
Definition delete_body (post_id : Z) (current_user : User.t) (req : Request)
    : M Response :=
  post <- Post_query_get_or_404 post_id ;;
  if negb (Post.user_id post =? User.id current_user) then
    ret (Redirect "edit" [])
  else
    session_delete_post post ;;
    session_commit ;;
    ret (Redirect "edit" []).

Definition delete_view (post_id : Z) : Request -> M Response :=
  route ["GET"] (login_required (delete_body post_id)).

(** [user_delete] (lines 331-345). *)
Definition user_delete_body (current_user : User.t) (req : Request) : M Response :=
  let user := current_user in
  Post_query_filter_by_user_delete (User.id user) ;;
  session_delete_user user ;;
  session_commit ;;
  flash "アカウントと投稿がすべて削除されました。" ;;
  ret (Redirect "login" []).

Definition user_delete : Request -> M Response :=
  route ["POST"] (login_required user_delete_body).

(** ** Serving a request *)

(** One request: a fresh session, the view, then the session is dropped
    (what was not committed is rolled back); an exception that escapes
    the view becomes an error page. *)
Definition serve (view : Request -> M Response) (req : Request) (w : World)
    : Response * World :=
  let '(r, st) := view req (mkSt w (fresh_session w)) in
  (match r with
   | Ok resp => resp
   | Err (HTTPException code name) => ErrorPage code name
   | Err (Raised name) => ErrorPage 500 name
   end,
   world st).

(** The browser following a redirect: a GET of the target with the
    values as query string, no form data, the same session cookie. *)
Definition follow_redirect (endpoint : string) (values : list (string * string))
    (session : option Z) : Request :=
  mkRequest "GET" values [] session.

End Views.

(** ** Notions used in the statements *)

(** Lexicon entries that occur in the text, by polarity. *)
Definition positive_hits (word_dict : Dict) (text : string)
    : list (string * option string) :=
  List.filter (fun it => str_in it.1 text && category_eq it.2 "positive") word_dict.
Definition negative_hits (word_dict : Dict) (text : string)
    : list (string * option string) :=
  List.filter (fun it => str_in it.1 text && negb (category_eq it.2 "positive"))
    word_dict.

(** Well-formed tables: a row is stored under its own primary key, and the
    post sequence is ahead of every key in use. *)
Definition tables_ok (t : Tables) : Prop :=
  map_Forall (fun k (p : Post.t) => Post.id p = k /\ k < post_seq t) (posts t) /\
  map_Forall (fun k (u : User.t) => User.id u = k) (users t).

Definition is_digit_or_minus (c : ascii) : bool :=
  let n := N_of_ascii c in
  ((48 <=? n) && (n <=? 57))%N || (n =? 45)%N.

(** The message flashed when no image came back. *)
Definition failure_message : string := "画像生成に失敗しました".

Definition with_flash (message : string) (w : World) : World :=
  mkWorld (db w) (commit_log w) (files w) (flashes w ++ [message]) (clock w).

(** The tables after the INSERT of a new post by [uid]. *)
Definition tables_with_new_post (t : Tables) (content : string) (now uid : Z)
    : Tables :=
  mkTables (<[post_seq t := Post.mk (post_seq t) content now uid None]> (posts t))
    (users t) (post_seq t + 1) (user_seq t).

(** The world after user [uid], whose draft holds [data], has confirmed
    post [pid]. *)
Definition confirmed_world (w : World) (uid pid : Z) (data : list Byte.byte)
    : World :=
  let t := set_posts
             (alter (Post.with_image_path (Some (final_path_of uid pid))) pid)
             (db w) in
  mkWorld t (t :: commit_log w)
    (<[final_path_of uid pid := data]> (delete (tmp_path_of uid) (files w)))
    (flashes w) (clock w).

(** The tables once the account [uid] and its posts are gone. *)
Definition account_deleted_tables (uid : Z) (t : Tables) : Tables :=
  set_users (delete uid)
    (set_posts (filter (fun kv : Z * Post.t => Post.user_id kv.2 ≠ uid)) t).

(** One request served by one of the views, with whatever request data and
    whatever answer of the image service. *)
Inductive Step (word_dict : Dict) : World -> World -> Prop :=
| step_posts (req : Request) (w : World) :
    Step word_dict w (serve posts_view req w).2
| step_newimage (text_to_image : string -> option (list Byte.byte))
    (req : Request) (w : World) :
    Step word_dict w (serve (newimage word_dict text_to_image) req w).2
| step_confirm_image (req : Request) (w : World) :
    Step word_dict w (serve confirm_image req w).2
| step_delete (post_id : Z) (req : Request) (w : World) :
    Step word_dict w (serve (delete_view post_id) req w).2
| step_user_delete (req : Request) (w : World) :
    Step word_dict w (serve user_delete req w).2.

(** The worlds the application can reach from [w0]. *)
Definition Reachable (word_dict : Dict) (w0 w : World) : Prop :=
  rtc (Step word_dict) w0 w.

(** Every stored image path is the one named by the post's owner and the
    post's id. *)
Definition image_paths_named_by_owner (w : World) : Prop :=
  map_Forall
    (fun _ (p : Post.t) =>
       forall path, Post.image_path p = Some path ->
                    path = final_path_of (Post.user_id p) (Post.id p))
    (posts (db w)).

(** ** A small diary used in the examples *)

Definition alice : User.t := User.mk 1 "alice" "pbkdf2:sha256$a".
Definition bob : User.t := User.mk 2 "bob" "pbkdf2:sha256$b".

(** Two registered users, no post, no file. *)
Definition world0 : World :=
  mkWorld (mkTables ∅ (<[1 := alice]> (<[2 := bob]> ∅)) 1 3) [] ∅ [] 1000.

Definition lexicon : Dict :=
  [("happy", Some "positive"); ("sad", Some "negative")].

Definition png : list Byte.byte := [Byte.x89; Byte.x50; Byte.x4e; Byte.x47].
Definition png' : list Byte.byte := [Byte.x89; Byte.x50; Byte.x4e; Byte.x47; Byte.x0d].

Definition image_ok (prompt : string) : option (list Byte.byte) := Some png.
Definition image_ok' (prompt : string) : option (list Byte.byte) := Some png'.
Definition image_fails (prompt : string) : option (list Byte.byte) := None.

(** Alice posts a plain entry: post 1. *)
Definition alice_posts : Request :=
  mkRequest "POST" [] [("diary_entry", "a happy day"); ("action", "plain")] (Some 1).
Definition world1 : World := (serve posts_view alice_posts world0).2.

(** Bob asks for an image for a new entry: post 2 and Bob's draft file. *)
Definition bob_drafts : Request :=
  mkRequest "POST" [] [("content", "a sad day")] (Some 2).
Definition world2 : World := (serve (newimage lexicon image_ok) bob_drafts world1).2.

Definition bob_confirms (post_id : string) : Request :=
  mkRequest "POST" [] [("action", "confirm"); ("post_id", post_id)] (Some 2).
Definition bob_redoes : Request :=
  mkRequest "POST" [] [("action", "redo"); ("content", "a happy day")] (Some 2).
(** An action that is neither ["redo"] nor ["confirm"]. *)
Definition bob_sends_other_action : Request :=
  mkRequest "POST" [] [("action", "Redo"); ("post_id", "2")] (Some 2).

Definition bob_gets (post_id : string) : Request :=
  mkRequest "GET" [("post_id", post_id)] [] (Some 2).
Definition bob_request : Request := mkRequest "POST" [] [] (Some 2).
Definition bob_visits : Request := mkRequest "GET" [] [] (Some 2).
Definition alice_request : Request := mkRequest "GET" [] [] (Some 1).

Definition post1 : Post.t := Post.mk 1 "a happy day" 1000 1 None.
Definition post2 : Post.t := Post.mk 2 "a sad day" 1000 2 None.

(** ** The remaining views *)

(** The decorators and the dispatch at any result type: the list pages and
    the session-changing views answer with more than a [Response]. *)
Definition route_to {R : Type} (methods : list string) (view : Request -> M R)
    (req : Request) : M R :=
  if bool_decide (method req ∈ allowed_methods methods) then view req
  else raise (HTTPException 405 "MethodNotAllowed").

Definition login_required_to {R : Type} (view : User.t -> Request -> M R)
    (req : Request) : M R :=
  match session_user_id req with
  | None => raise (HTTPException 401 "Unauthorized")
  | Some uid =>
      u <- load_user uid ;;
      match u with
      | None => raise (HTTPException 401 "Unauthorized")
      | Some current_user => view current_user req
      end
  end.

Definition serve_to {R : Type} (error_page : Z -> string -> R)
    (view : Request -> M R) (req : Request) (w : World) : R * World :=
  let '(r, st) := view req (mkSt w (fresh_session w)) in
  (match r with
   | Ok reply => reply
   | Err (HTTPException code name) => error_page code name
   | Err (Raised name) => error_page 500 name
   end,
   world st).

(** *** Listing: [index] (lines 144-165) and [edit] (lines 303-307) *)

(** A timezone-aware datetime: the instant (seconds, UTC) and the offset of
    the zone it is shown in. *)
Record AwareDatetime := mkAware {
  instant : Z;
  utcoffset : Z
}.

(** [d.replace(tzinfo=pytz.utc).astimezone(pytz.timezone('Asia/Tokyo'))]:
    the same instant, shown nine hours ahead (Japan has kept UTC+9 without
    daylight saving since 1951, and stored dates come from [utc_now]). *)
Definition to_jst (date_created : Z) : AwareDatetime :=
  mkAware date_created (9 * 3600).

(** The dictionary appended to [posts] for one post. *)
Record PostView := mkPostView {
  view_content : string;
  view_date : AwareDatetime;
  view_image_path : option string
}.

Definition post_view (post : Post.t) : PostView :=
  mkPostView (Post.content post) (to_jst (Post.date_created post))
    (Post.image_path post).

(** [ORDER BY date_created DESC]: newer or equal comes first. *)
Definition newer_first (p q : Post.t) : Prop :=
  Post.date_created q <= Post.date_created p.

#[global] Instance newer_first_dec (p q : Post.t) : Decision (newer_first p q) :=
  Z_le_dec _ _.

(** [Post.query.filter_by(user_id=uid).order_by(Post.date_created.desc()).all()];
    rows of equal date, whose order the database leaves open, come in key
    order. *)
Definition Post_query_by_user_newest_first (uid : Z) : M (list Post.t) :=
  gets (fun st =>
    merge_sort newer_first
      (map snd (map_to_list
         (filter (fun kv : Z * Post.t => Post.user_id kv.2 = uid)
            (posts (working (sess st))))))).

Inductive ListPage :=
| ListRedirect (endpoint : string)
| IndexPage (posts_all : list PostView)
| EditPage (posts_all : list Post.t)
| ListError (code : Z) (reason : string).

(** [current_user] outside [@login_required]: the session's user, or the
    anonymous user. *)
Definition current_user_of (req : Request) : M (option User.t) :=
  match session_user_id req with
  | None => ret None
  | Some uid => load_user uid
  end.

Definition index_body (req : Request) : M ListPage :=
  current_user <- current_user_of req ;;
  match current_user with
  | None => ret (ListRedirect "login")
  | Some current_user =>
      all_posts <- Post_query_by_user_newest_first (User.id current_user) ;;
      let posts := map post_view all_posts in
      ret (IndexPage posts)
  end.

Definition index : Request -> M ListPage := route_to ["GET"] index_body.

Definition edit_body (current_user : User.t) (req : Request) : M ListPage :=
  posts_all <- Post_query_by_user_newest_first (User.id current_user) ;;
  ret (EditPage posts_all).

Definition edit : Request -> M ListPage :=
  route_to ["GET"] (login_required_to edit_body).

Definition serve_list : (Request -> M ListPage) -> Request -> World -> ListPage * World :=
  serve_to ListError.

(** [user_delete_confirm] (lines 325-328). *)
Definition user_delete_confirm : Request -> M Response :=
  route ["GET"]
    (login_required (fun _ _ => ret (Render "user_delete_confirm.html" []))).

(** *** Accounts: [newuser] (lines 230-253), [login] (257-273), [logout] (276-280) *)

(** Characters of a UTF-8 string: the bytes that are not continuation
    bytes. *)
Fixpoint utf8_length (s : string) : Z :=
  match s with
  | EmptyString => 0
  | String c rest =>
      let n := Z.of_N (N_of_ascii c) in
      (if (128 <=? n) && (n <? 192) then 0 else 1) + utf8_length rest
  end.

(** [User.query.filter_by(username=name).first()]; a [None] name matches no
    row, [username] being NOT NULL. *)
Definition User_query_by_username_first (username : option string)
    : M (option User.t) :=
  gets (fun st =>
    match username with
    | None => None
    | Some name =>
        head (map snd (map_to_list
          (filter (fun kv : Z * User.t => User.username kv.2 = name)
             (users (working (sess st))))))
    end).

(** [db.session.add(User(username=..., password=...))].  The INSERT is
    carried out here rather than at the commit, which the source issues on
    the next line.  The columns are checked as PostgreSQL, the engine of
    the configured URI (line 20), checks them: [username] is VARCHAR(30)
    UNIQUE, [password] VARCHAR(128), lengths counted in characters; the key
    comes from the sequence. *)
Definition session_add_user (username password : string) : M unit :=
  fun st =>
    let t := working (sess st) in
    if (30 <? utf8_length username) || (128 <? utf8_length password) then
      (Err (Raised "DataError"), st)
    else if bool_decide
              (filter (fun kv : Z * User.t => User.username kv.2 = username)
                 (users t) ≠ ∅) then
      (Err (Raised "IntegrityError"), st)
    else
      let uid := user_seq t in
      (Ok tt,
       set_sess (set_working (fun t =>
         mkTables (posts t) (<[uid := User.mk uid username password]> (users t))
           (post_seq t) (uid + 1))) st).

Inductive SessionChange :=
| KeepSession
| LogIn (user_id : Z)
| LogOut.

(** The session cookie the next request carries. *)
Definition next_session (change : SessionChange) (session : option Z) : option Z :=
  match change with
  | KeepSession => session
  | LogIn uid => Some uid
  | LogOut => None
  end.

Section Accounts.

(** werkzeug's salted hash of a password, and its check of a password
    against a stored hash; the check may raise (a missing password field has
    no [encode]). *)
Variable generate_password_hash : string -> string.
Variable check_password_hash : string -> option string -> Res bool.

Definition newuser_body (req : Request) : M Response :=
  let error_message : option string := None in
  outcome <-
    (if String.eqb (method req) "POST" then
       let username := multidict_get (form req) "username" in
       let password := multidict_get (form req) "password" in
       if negb (opt_truthy username) then
         ret (inl (Some "ユーザー名を入力してください"))
       else if negb (opt_truthy password) then
         ret (inl (Some "パスワードを入力してください"))
       else
         taken <- User_query_by_username_first username ;;
         if bool_decide (is_Some taken) then
           ret (inl (Some "すでに登録されているユーザー名です"))
         else
           session_add_user (default "" username)
             (generate_password_hash (default "" password)) ;;
           session_commit ;;
           ret (inr (Render "login.html" []))
     else ret (inl error_message)) ;;
  match outcome with
  | inr page => ret page
  | inl error_message =>
      ret (Render "newuser.html" [("error", val_of_opt error_message)])
  end.

Definition newuser : Request -> M Response :=
  route ["GET"; "POST"] newuser_body.

Definition call_check_password_hash (pwhash : string) (password : option string)
    : M bool :=
  match check_password_hash pwhash password with
  | Ok b => ret b
  | Err e => raise e
  end.

Definition login_body (req : Request) : M (Response * SessionChange) :=
  let error_message : option string := None in
  outcome <-
    (if String.eqb (method req) "POST" then
       let username := multidict_get (form req) "username" in
       let password := multidict_get (form req) "password" in
       user <- User_query_by_username_first username ;;
       match user with
       | None => ret (inl (Some "ユーザー名かパスワードが間違っています"))
       | Some user =>
           ok <- call_check_password_hash (User.password user) password ;;
           if negb ok then
             ret (inl (Some "ユーザー名かパスワードが間違っています"))
           else
             (* login_user(user) *)
             ret (inr (Redirect "index" [], LogIn (User.id user)))
       end
     else ret (inl error_message)) ;;
  match outcome with
  | inr reply => ret reply
  | inl error_message =>
      ret (Render "login.html" [("error", val_of_opt error_message)], KeepSession)
  end.

Definition login : Request -> M (Response * SessionChange) :=
  route_to ["GET"; "POST"] login_body.

End Accounts.

(** [logout]: [logout_user()], then [redirect('/login')]. *)
Definition logout : Request -> M (Response * SessionChange) :=
  route_to ["GET"] (login_required_to (fun _ _ => ret (Redirect "login" [], LogOut))).

Definition serve_session
    : (Request -> M (Response * SessionChange)) -> Request -> World ->
      (Response * SessionChange) * World :=
  serve_to (fun code reason => (ErrorPage code reason, KeepSession)).

(** ** Notions used in the further statements *)

(** The category the lexicon file gives a word: that of the last row
    carrying the word. *)
Fixpoint last_category (rows : list CsvRow) (word : string)
    : option (option string) :=
  match rows with
  | [] => None
  | row :: rest =>
      match last_category rest word with
      | Some category => Some category
      | None =>
          if String.eqb (row_word row) word then Some (row_category row)
          else None
      end
  end.

(** Every character is a decimal digit or a minus sign. *)
Fixpoint all_digit_or_minus (s : string) : bool :=
  match s with
  | EmptyString => true
  | String c rest => is_digit_or_minus c && all_digit_or_minus rest
  end.

(** The user sequence is ahead of every user key in use. *)
Definition users_fresh (t : Tables) : Prop :=
  map_Forall (fun k (_ : User.t) => k < user_seq t) (users t).

(** No two user rows carry the same username. *)
Definition usernames_unique (t : Tables) : Prop :=
  map_Forall (fun k1 (u1 : User.t) =>
    map_Forall (fun k2 (u2 : User.t) =>
      User.username u1 = User.username u2 -> k1 = k2) (users t)) (users t).

(** Every post belongs to a stored user. *)
Definition owners_exist (t : Tables) : Prop :=
  map_Forall (fun _ (p : Post.t) => is_Some (users t !! Post.user_id p)) (posts t).

Definition store_ok (t : Tables) : Prop :=
  tables_ok t /\ users_fresh t /\ usernames_unique t /\ owners_exist t.

(** One request served by any view of the application. *)
Inductive AppStep (word_dict : Dict) : World -> World -> Prop :=
| app_step (w w' : World) :
    Step word_dict w w' -> AppStep word_dict w w'
| app_newuser (generate_password_hash : string -> string)
    (req : Request) (w : World) :
    AppStep word_dict w (serve (newuser generate_password_hash) req w).2
| app_login (check_password_hash : string -> option string -> Res bool)
    (req : Request) (w : World) :
    AppStep word_dict w (serve_session (login check_password_hash) req w).2
| app_logout (req : Request) (w : World) :
    AppStep word_dict w (serve_session logout req w).2
| app_index (req : Request) (w : World) :
    AppStep word_dict w (serve_list index req w).2
| app_edit (req : Request) (w : World) :
    AppStep word_dict w (serve_list edit req w).2
| app_user_delete_confirm (req : Request) (w : World) :
    AppStep word_dict w (serve user_delete_confirm req w).2.

Definition AppReachable (word_dict : Dict) (w0 w : World) : Prop :=
  rtc (AppStep word_dict) w0 w.

(** Is the response an error page? *)
Definition is_error_page (r : Response) : bool :=
  match r with
  | ErrorPage _ _ => true
  | _ => false
  end.

(** No session cookie, or the cookie of an account that is not stored. *)
Definition anonymous (req : Request) (w : World) : Prop :=
  match session_user_id req with
  | None => True
  | Some uid => users (db w) !! uid = None
  end.

(** The rows the list query returns for [uid]. *)
Definition listed_posts (uid : Z) (t : Tables) : list Post.t :=
  merge_sort newer_first
    (map snd (map_to_list
       (filter (fun kv : Z * Post.t => Post.user_id kv.2 = uid) (posts t)))).

(** The row [first()] returns for a username. *)
Definition user_named (name : string) (t : Tables) : option User.t :=
  head (map snd (map_to_list
    (filter (fun kv : Z * User.t => User.username kv.2 = name) (users t)))).

(** The tables after the INSERT of a new user. *)
Definition tables_with_new_user (t : Tables) (username password : string) : Tables :=
  mkTables (posts t)
    (<[user_seq t := User.mk (user_seq t) username password]> (users t))
    (post_seq t) (user_seq t + 1).

(** No stored user carries the name. *)
Definition name_is_free (name : string) (t : Tables) : Prop :=
  map_Forall (fun _ (u : User.t) => User.username u <> name) (users t).

(** The one message [login] shows for every rejection. *)
Definition login_failed_message : string := "ユーザー名かパスワードが間違っています".

(** The characters on which [int_of_str] is exactly Python's [int]:
    printable ASCII and the white space ["\t\n\v\f\r"], the underscore
    apart.  Outside of them [int] accepts more than [int_of_str] does: it
    groups digits with underscores, strips the separators 0x1c-0x1f and
    reads the decimal digits of other scripts. *)
Definition plain_char (c : ascii) : bool :=
  let n := N_of_ascii c in
  ((((9 <=? n) && (n <=? 13)) || ((32 <=? n) && (n <=? 126))) && negb (n =? 95))%N.

Fixpoint plain_text (s : string) : bool :=
  match s with
  | EmptyString => true
  | String c rest => plain_char c && plain_text rest
  end.

(** The [post_id] field, when present, is such a string. *)
Definition plain_post_id (req : Request) : Prop :=
  forall s, multidict_get (form req) "post_id" = Some s -> plain_text s = true.

(** ** Accounts used in the examples *)

(** A database just created: no user, no post. *)
Definition empty_world : World := mkWorld (mkTables ∅ ∅ 1 1) [] ∅ [] 1000.

(** A stand-in for the salted hash and its check. *)
Definition toy_hash (password : string) : string := "pbkdf2:sha256$" ++ password.
Definition toy_check (pwhash : string) (password : option string) : Res bool :=
  match password with
  | Some password => Ok (String.eqb pwhash (toy_hash password))
  | None => Err (Raised "AttributeError")
  end.

Definition credentials (username password : string) : Request :=
  mkRequest "POST" [] [("username", username); ("password", password)] None.

Definition alice_registered : World :=
  (serve (newuser toy_hash) (credentials "alice" "hunter2") empty_world).2.

(** Requests used in the further examples. *)
Definition anonymous_post : Request := mkRequest "POST" [] [] None.
Definition anonymous_get : Request := mkRequest "GET" [] [] None.

(** * Properties *)

(** ** Strings *)

Lemma append_nil (s : string) : "" ++ s = s.
Proof. reflexivity. Qed.
Lemma append_cons (a : ascii) (s t : string) : String a s ++ t = String a (s ++ t).
Proof. reflexivity. Qed.

Lemma prefix_iff (w t : string) :
  String.prefix w t = true <-> exists suf, t = w ++ suf.
Proof.
  revert t. induction w as [|a w IH]; intros t.
  - destruct t; simpl; (split; [intros _; eexists; by rewrite append_nil | done]).
  - destruct t as [|b t]; simpl.
    + split; [done | intros [suf H]; rewrite append_cons in H; discriminate].
    + destruct (ascii_dec a b) as [->|Hne].
      * rewrite IH. split; intros [suf H]; exists suf; rewrite append_cons in *; congruence.
      * split; [done | intros [suf H]; rewrite append_cons in H; congruence].
Qed.

Lemma str_in_iff (w t : string) :
  str_in w t = true <-> exists pre suf, t = pre ++ w ++ suf.
Proof.
  induction t as [|b t IH]; cbn [str_in].
  - rewrite orb_false_r, prefix_iff. split.
    + intros [suf H]. by exists "", suf.
    + intros [pre [suf H]]. destruct pre; [by exists suf | rewrite append_cons in H; discriminate].
  - rewrite orb_true_iff, prefix_iff, IH. split.
    + intros [[suf H] | [pre [suf H]]].
      * by exists "", suf.
      * exists (String b pre), suf. rewrite append_cons. by rewrite H.
    + intros [pre [suf H]]. destruct pre as [|c pre].
      * left. by exists suf.
      * right. exists pre, suf. rewrite append_cons in H. congruence.
Qed.

(** ** The counters of the Sentiment Scorer *)

Lemma count_loop (text : string) (d : Dict) (p n : Z) :
  fold_left (count_step text) d (p, n) =
  (p + Z.of_nat (length (positive_hits d text)),
   n + Z.of_nat (length (negative_hits d text))).
Proof.
  revert p n. induction d as [|[w c] d IH]; intros p n.
  - simpl. f_equal; lia.
  - cbn [fold_left count_step]. unfold positive_hits, negative_hits in *.
    cbn [List.filter fst snd].
    destruct (str_in w text), (category_eq c "positive");
      cbn [andb negb length]; rewrite IH; f_equal; lia.
Qed.

Lemma sentiment_counts_eq (d : Dict) (text : string) :
  sentiment_counts d text =
  (Z.of_nat (length (positive_hits d text)),
   Z.of_nat (length (negative_hits d text))).
Proof. unfold sentiment_counts. by rewrite count_loop. Qed.

Lemma hits_app_pos (d1 d2 : Dict) (text : string) :
  positive_hits (d1 ++ d2)%list text = (positive_hits d1 text ++ positive_hits d2 text)%list.
Proof. apply List.filter_app. Qed.

Lemma hits_app_neg (d1 d2 : Dict) (text : string) :
  negative_hits (d1 ++ d2)%list text = (negative_hits d1 text ++ negative_hits d2 text)%list.
Proof. apply List.filter_app. Qed.

(** No entry occurs in the text exactly when both hit lists are empty. *)
Lemma no_hits_iff (d : Dict) (text : string) :
  existsb (fun it => str_in it.1 text) d = false <->
  positive_hits d text = [] /\ negative_hits d text = [].
Proof.
  unfold positive_hits, negative_hits.
  induction d as [|[w c] d IH]; simpl; [done|].
  destruct (str_in w text); simpl.
  - destruct (category_eq c "positive"); simpl; split; try done.
    + intros [H _]. discriminate.
    + intros [_ H]. discriminate.
  - done.
Qed.

(** The dictionary built by the loading loop has no repeated key and no
    empty key. *)
Lemma dict_setitem_keys (d : Dict) (k : string) (v : option string) :
  NoDup (map fst d) ->
  NoDup (map fst (dict_setitem d k v)) /\
  (forall x, x ∈ map fst (dict_setitem d k v) <-> x = k \/ x ∈ map fst d).
Proof.
  induction d as [|[k' v'] d IH]; simpl; intros Hnd.
  - split; [apply NoDup_singleton|].
    intros x. rewrite elem_of_cons, elem_of_nil. tauto.
  - apply NoDup_cons in Hnd as [Hk' Hnd].
    destruct (String.eqb_spec k' k) as [->|Hne]; simpl.
    + split; [by apply NoDup_cons|].
      intros x. rewrite elem_of_cons. tauto.
    + destruct (IH Hnd) as [IH1 IH2]. split.
      * apply NoDup_cons. split; [|done].
        rewrite IH2. intros [Heq|Hin]; [by apply Hne | by apply Hk'].
      * intros x. rewrite !elem_of_cons, IH2. tauto.
Qed.

Lemma load_word_dict_fold (rows : list CsvRow) :
  load_word_dict rows = fold_left load_step rows [].
Proof. reflexivity. Qed.

Lemma load_fold_keys (rows : list CsvRow) (d : Dict) :
  NoDup (map fst d) -> (forall k, k ∈ map fst d -> k <> "") ->
  NoDup (map fst (fold_left load_step rows d)) /\
  (forall k, k ∈ map fst (fold_left load_step rows d) -> k <> "").
Proof.
  revert d. induction rows as [|r rows IH]; intros d Hnd Hne; simpl; [done|].
  unfold load_step at 2 4.
  destruct (str_truthy (row_word r)) eqn:Ht; simpl; [|by apply IH].
  destruct (dict_setitem_keys d (row_word r) (row_category r) Hnd) as [H1 H2].
  apply IH; [done|]. intros k Hk. apply H2 in Hk as [->|Hk]; [|by apply Hne].
  intros Heq. rewrite Heq in Ht. discriminate.
Qed.

Lemma load_word_dict_keys (rows : list CsvRow) :
  NoDup (map fst (load_word_dict rows)) /\
  (forall k, k ∈ map fst (load_word_dict rows) -> k <> "").
Proof.
  rewrite load_word_dict_fold. apply load_fold_keys; [constructor|].
  intros k Hk. by apply elem_of_nil in Hk.
Qed.

(** ** Sentiment Scorer *)

(** The hits depend on the text only through which lexicon words occur in
    it. *)
Lemma hits_ext (d : Dict) (text text' : string) :
  (forall it, In it d -> str_in it.1 text' = str_in it.1 text) ->
  positive_hits d text' = positive_hits d text /\
  negative_hits d text' = negative_hits d text.
Proof.
  intros H. unfold positive_hits, negative_hits.
  split; apply List.filter_ext_in; intros it Hit; by rewrite (H it Hit).
Qed.

Lemma analyze_sentiment_unfold (word_dict : Dict) (text : string) :
  analyze_sentiment word_dict text =
  let pos_count := Z.of_nat (length (positive_hits word_dict text)) in
  let neg_count := Z.of_nat (length (negative_hits word_dict text)) in
  if pos_count + neg_count =? 0 then 1 # 2
  else pos_count # Z.to_pos (pos_count + neg_count).
Proof. unfold analyze_sentiment. by rewrite sentiment_counts_eq. Qed.

Lemma ratio_bounds (p n : Z) :
  0 <= p -> 0 <= n -> 0 < p + n ->
  (0 <= p # Z.to_pos (p + n))%Q /\ (p # Z.to_pos (p + n) <= 1)%Q.
Proof.
  intros Hp Hn Ht. unfold Qle. simpl. rewrite Z2Pos.id by done. lia.
Qed.

Lemma ratio_div (p t : Z) :
  0 < t -> (p # Z.to_pos t == inject_Z p / inject_Z t)%Q.
Proof.
  intros Ht. rewrite (Qmake_Qdiv p (Z.to_pos t)). by rewrite Z2Pos.id.
Qed.

(** C4. For every lexicon and every text: a lexicon word is a hit exactly
    when it occurs in the text as a substring; the scorer's two counters
    are the number of lexicon entries that are positive hits and the number
    that are hits of any other category, one per entry however often the
    word occurs; the score is exactly 1/2 when no lexicon word occurs and
    positive_count / (positive_count + negative_count) otherwise; the
    score always lies in [0,1]; and two texts in which the same lexicon
    words occur, however often, get the same score. *)
Theorem analyze_sentiment_spec (word_dict : Dict) (text : string) :
  let pos_count := Z.of_nat (length (positive_hits word_dict text)) in
  let neg_count := Z.of_nat (length (negative_hits word_dict text)) in
  (forall word, str_in word text = true <->
                exists pre suf, text = pre ++ word ++ suf) /\
  sentiment_counts word_dict text = (pos_count, neg_count) /\
  (pos_count <= Z.of_nat (length word_dict) /\
   neg_count <= Z.of_nat (length word_dict)) /\
  (if existsb (fun it => str_in it.1 text) word_dict
   then analyze_sentiment word_dict text = (pos_count # Z.to_pos (pos_count + neg_count)) /\
        (analyze_sentiment word_dict text ==
           inject_Z pos_count / inject_Z (pos_count + neg_count))%Q
   else analyze_sentiment word_dict text = 1 # 2) /\
  (0 <= analyze_sentiment word_dict text)%Q /\
  (analyze_sentiment word_dict text <= 1)%Q /\
  (forall text',
     (forall it, In it word_dict -> str_in it.1 text' = str_in it.1 text) ->
     analyze_sentiment word_dict text' = analyze_sentiment word_dict text).
Proof.
  intros pos_count neg_count.
  assert (Hsame : forall text',
     (forall it, In it word_dict -> str_in it.1 text' = str_in it.1 text) ->
     analyze_sentiment word_dict text' = analyze_sentiment word_dict text).
  { intros text' H. rewrite !analyze_sentiment_unfold.
    destruct (hits_ext word_dict text text' H) as [-> ->]. done. }
  split; [intros word; apply str_in_iff|].
  split; [apply sentiment_counts_eq|].
  split.
  { subst pos_count neg_count. unfold positive_hits, negative_hits.
    split; apply inj_le, List.filter_length_le. }
  match goal with
  | |- ?value /\ ?lower /\ ?upper /\ _ =>
      cut (value /\ lower /\ upper);
        [intros (Hv & Hl & Hu); exact (conj Hv (conj Hl (conj Hu Hsame)))|]
  end.
  clear Hsame.
  rewrite analyze_sentiment_unfold. cbv zeta. fold pos_count neg_count.
  assert (Hp : 0 <= pos_count) by apply Nat2Z.is_nonneg.
  assert (Hn : 0 <= neg_count) by apply Nat2Z.is_nonneg.
  destruct (existsb (fun it => str_in it.1 text) word_dict) eqn:Hex.
  - assert (Ht : 0 < pos_count + neg_count).
    { destruct (Z.eq_dec (pos_count + neg_count) 0) as [Hz|Hz]; [|lia].
      assert (Hnone : positive_hits word_dict text = [] /\ negative_hits word_dict text = []).
      { subst pos_count neg_count.
        split; apply length_zero_iff_nil; lia. }
      apply no_hits_iff in Hnone. congruence. }
    destruct (Z.eqb_spec (pos_count + neg_count) 0) as [Hz|_]; [lia|].
    split; [split; [done | by apply ratio_div]|].
    by apply ratio_bounds.
  - apply no_hits_iff in Hex as [H1 H2].
    subst pos_count neg_count. rewrite H1, H2. simpl.
    split; [done|]. split; unfold Qle; simpl; lia.
Qed.

Lemma analyze_sentiment_spec_witness :
  analyze_sentiment lexicon "happy, happy, so happy, not sad" =
  analyze_sentiment lexicon "happy sad".
Proof.
  destruct (analyze_sentiment_spec lexicon "happy sad")
    as (_ & _ & _ & _ & _ & _ & Hsame).
  apply Hsame. intros it [<-|[<-|[]]]; reflexivity.
Defined.

(** ** Prompt Generator *)

Lemma Qle_bool_false (x y : Q) : Qle_bool x y = false <-> (y < x)%Q.
Proof.
  rewrite <- not_true_iff_false, Qle_bool_iff. split.
  - apply Qnot_le_lt.
  - apply Qlt_not_le.
Qed.

(** C5. The Prompt Generator is a function of the score alone: a score of
    at least 0.7 gives the positive prompt, a score in [0.4, 0.7) the
    neutral prompt, a score below 0.4 the negative prompt; the three
    prompts are distinct literals; 0.7 and 1.0 give the same positive
    prompt, exactly 0.4 gives neutral and 0.39999 gives negative. *)
Theorem generate_prompt_thresholds :
  (forall s : Q, (7 # 10 <= s)%Q -> generate_prompt s = positive_prompt) /\
  (forall s : Q, (4 # 10 <= s)%Q -> (s < 7 # 10)%Q ->
     generate_prompt s = neutral_prompt) /\
  (forall s : Q, (s < 4 # 10)%Q -> generate_prompt s = negative_prompt) /\
  (forall s s' : Q, (s == s')%Q -> generate_prompt s = generate_prompt s') /\
  (positive_prompt <> neutral_prompt /\ neutral_prompt <> negative_prompt /\
   positive_prompt <> negative_prompt) /\
  generate_prompt (7 # 10) = positive_prompt /\
  generate_prompt 1 = generate_prompt (7 # 10) /\
  generate_prompt (4 # 10) = neutral_prompt /\
  generate_prompt (39999 # 100000) = negative_prompt.
Proof.
  assert (Hpos : forall s : Q, (7 # 10 <= s)%Q -> generate_prompt s = positive_prompt).
  { intros s H. unfold generate_prompt.
    apply Qle_bool_iff in H. by rewrite H. }
  assert (Hneu : forall s : Q, (4 # 10 <= s)%Q -> (s < 7 # 10)%Q ->
            generate_prompt s = neutral_prompt).
  { intros s H1 H2. unfold generate_prompt.
    apply Qle_bool_iff in H1. apply Qle_bool_false in H2. by rewrite H2, H1. }
  assert (Hneg : forall s : Q, (s < 4 # 10)%Q -> generate_prompt s = negative_prompt).
  { intros s H. unfold generate_prompt.
    assert (H' : (s < 7 # 10)%Q) by (eapply Qlt_trans; [exact H | reflexivity]).
    apply Qle_bool_false in H, H'. by rewrite H', H. }
  split; [exact Hpos|]. split; [exact Hneu|]. split; [exact Hneg|].
  split.
  { intros s s' Heq. unfold generate_prompt.
    by rewrite !(Qleb_comp _ _ (Qeq_refl _) s s' Heq). }
  split; [by repeat split|].
  repeat split; reflexivity.
Qed.

Lemma generate_prompt_thresholds_witness :
  generate_prompt (3 # 4) = positive_prompt /\
  generate_prompt (1 # 2) = neutral_prompt /\
  generate_prompt (1 # 4) = negative_prompt /\
  generate_prompt (2 # 4) = generate_prompt (1 # 2).
Proof.
  destruct generate_prompt_thresholds as (Hpos & Hneu & Hneg & Hext & _).
  split; [apply Hpos; unfold Qle; simpl; lia|].
  split; [apply Hneu; [unfold Qle | unfold Qlt]; simpl; lia|].
  split; [apply Hneg; unfold Qlt; simpl; lia|].
  apply Hext. unfold Qeq. simpl. lia.
Defined.

(** ** Exact scores and binary64 scores *)

(** Whatever rounding to nearest does in detail, it is monotone, exact on 0
    and 1, and off by at most half a unit in the last place, which on
    [0,1] is at most 2^-54.  Under these three facts the functions on
    exact rationals and the functions on binary64 values agree on the
    prompt for every lexicon of fewer than 2^53 / 10 entries, and the
    binary64 score lies in [0,1] as the exact one does. *)
Section Binary64.

Variable fl : Q -> Q.
Hypothesis fl_monotone : forall x y : Q, (x <= y)%Q -> (fl x <= fl y)%Q.
Hypothesis fl_zero : (fl 0 == 0)%Q.
Hypothesis fl_one : (fl 1 == 1)%Q.
Hypothesis fl_half_ulp :
  forall x : Q, (0 <= x)%Q -> (x <= 1)%Q -> (Qabs (fl x - x) <= 1 # 2 ^ 54)%Q.

Lemma threshold_agrees (c p t : Z) :
  0 <= c <= 10 -> 0 <= p <= t -> 0 < t -> 10 * t < 2 ^ 53 ->
  Qle_bool (fl (c # 10)) (fl (p # Z.to_pos t)) =
  Qle_bool (c # 10) (p # Z.to_pos t).
Proof.
  intros Hc Hp Ht Hsmall.
  destruct (Qle_bool (c # 10) (p # Z.to_pos t)) eqn:Hle.
  - apply Qle_bool_iff. apply fl_monotone. by apply Qle_bool_iff.
  - apply Qle_bool_false. apply Qle_bool_false in Hle.
    assert (Hx : (Qabs (fl (p # Z.to_pos t) - (p # Z.to_pos t)) <= 1 # 2 ^ 54)%Q).
    { apply fl_half_ulp; unfold Qle; simpl; rewrite ?Z2Pos.id by lia; lia. }
    assert (Hy : (Qabs (fl (c # 10) - (c # 10)) <= 1 # 2 ^ 54)%Q).
    { apply fl_half_ulp; unfold Qle; simpl; lia. }
    apply Qabs_Qle_condition in Hx as [_ Hx], Hy as [Hy _].
    assert (Hgap : ((p # Z.to_pos t) + (1 # 2 ^ 53) < c # 10)%Q).
    { unfold Qlt in *. simpl in *. rewrite Z2Pos.id in * by lia.
      rewrite Pos2Z.inj_mul, Z2Pos.id by lia.
      change (Z.pos (2 ^ 53)) with (2 ^ 53). nia. }
    assert (H54 : ((1 # 2 ^ 53) == (1 # 2 ^ 54) + (1 # 2 ^ 54))%Q) by reflexivity.
    rewrite H54 in Hgap. lra.
Qed.

Lemma threshold_half (c : Z) :
  0 <= c <= 10 -> c <> 5 ->
  Qle_bool (fl (c # 10)) (1 # 2) = Qle_bool (c # 10) (1 # 2).
Proof.
  intros Hc Hc5.
  assert (Hy : (Qabs (fl (c # 10) - (c # 10)) <= 1 # 2 ^ 54)%Q).
  { apply fl_half_ulp; unfold Qle; simpl; lia. }
  apply Qabs_Qle_condition in Hy as [Hlo Hhi].
  destruct (Qle_bool (c # 10) (1 # 2)) eqn:Hle.
  - apply Qle_bool_iff. apply Qle_bool_iff in Hle.
    assert (Hc' : ((c # 10) <= 4 # 10)%Q).
    { unfold Qle in *. simpl in *. lia. }
    assert (H54 : ((1 # 2 ^ 54) <= 1 # 10)%Q) by (unfold Qle; simpl; lia).
    lra.
  - apply Qle_bool_false. apply Qle_bool_false in Hle.
    assert (Hc' : (6 # 10 <= (c # 10))%Q).
    { unfold Qle, Qlt in *. simpl in *. lia. }
    assert (H54 : ((1 # 2 ^ 54) < 1 # 10)%Q) by (unfold Qlt; simpl; lia).
    lra.
Qed.

Lemma counts_nonneg (word_dict : Dict) (text : string) :
  0 <= (sentiment_counts word_dict text).1 <= Z.of_nat (length word_dict) /\
  0 <= (sentiment_counts word_dict text).2 <= Z.of_nat (length word_dict) /\
  (sentiment_counts word_dict text).1 + (sentiment_counts word_dict text).2
    <= Z.of_nat (length word_dict).
Proof.
  rewrite sentiment_counts_eq. cbn [fst snd].
  unfold positive_hits, negative_hits.
  induction word_dict as [|[w c] d IH]; cbn [List.filter length fst snd]; [lia|].
  destruct (str_in w text), (category_eq c "positive"); cbn [andb negb length]; lia.
Qed.

(** The prompt chosen by the float computation is the prompt chosen by the
    exact one. *)
Lemma binary64_prompt_agrees (word_dict : Dict) (text : string) :
  10 * Z.of_nat (length word_dict) < 2 ^ 53 ->
  generate_prompt_binary64 fl (analyze_sentiment_binary64 fl word_dict text) =
  generate_prompt (analyze_sentiment word_dict text).
Proof.
  intros Hsmall.
  unfold analyze_sentiment_binary64, analyze_sentiment.
  pose proof (counts_nonneg word_dict text) as (Hp & Hn & Ht).
  destruct (sentiment_counts word_dict text) as [p n]. cbn [fst snd] in *.
  unfold generate_prompt_binary64, generate_prompt.
  destruct (Z.eqb_spec (p + n) 0) as [_|Hz].
  - by rewrite !threshold_half by lia.
  - by rewrite !threshold_agrees by lia.
Qed.

(** The float score lies in [0,1]. *)
Lemma binary64_score_bounds (word_dict : Dict) (text : string) :
  (0 <= analyze_sentiment_binary64 fl word_dict text)%Q /\
  (analyze_sentiment_binary64 fl word_dict text <= 1)%Q.
Proof.
  unfold analyze_sentiment_binary64.
  pose proof (counts_nonneg word_dict text) as (Hp & Hn & Ht).
  destruct (sentiment_counts word_dict text) as [p n]. cbn [fst snd] in *.
  destruct (Z.eqb_spec (p + n) 0) as [_|Hz].
  - split; unfold Qle; simpl; lia.
  - destruct (ratio_bounds p n) as [Hlo Hhi]; [lia..|].
    split.
    + rewrite <- fl_zero. by apply fl_monotone.
    + rewrite <- fl_one. by apply fl_monotone.
Qed.

End Binary64.

(** ** Categories other than ['positive'] *)

Lemma category_eq_false (category : option string) :
  category <> Some "positive" -> category_eq category "positive" = false.
Proof.
  destruct category as [c|]; simpl; [|done].
  intros H. destruct (String.eqb_spec c "positive") as [->|]; [by destruct H | done].
Qed.

Lemma dict_setitem_fresh (d : Dict) (k : string) (v : option string) :
  dict_get d k = None -> dict_setitem d k v = (d ++ [(k, v)])%list.
Proof.
  induction d as [|[k' v'] d IH]; simpl; [done|].
  destruct (String.eqb k' k); [done|]. intros H. by rewrite IH.
Qed.

Lemma load_word_dict_snoc (rows : list CsvRow) (row : CsvRow) :
  load_word_dict (rows ++ [row]) = load_step (load_word_dict rows) row.
Proof. rewrite !load_word_dict_fold. by rewrite fold_left_app. Qed.

Lemma counts_insert (d1 d2 : Dict) (word : string) (category : option string)
    (text : string) :
  str_in word text = true -> category <> Some "positive" ->
  sentiment_counts (d1 ++ (word, category) :: d2)%list text =
  ((sentiment_counts (d1 ++ d2)%list text).1,
   (sentiment_counts (d1 ++ d2)%list text).2 + 1).
Proof.
  intros Hin Hcat. apply category_eq_false in Hcat.
  rewrite !sentiment_counts_eq, !hits_app_pos, !hits_app_neg.
  unfold positive_hits at 2, negative_hits at 2.
  cbn [List.filter fst snd]. rewrite Hin, Hcat. cbn [andb negb fst snd].
  fold (positive_hits d2 text). fold (negative_hits d2 text).
  rewrite !length_app. cbn [length]. f_equal. lia.
Qed.

(** C10. A lexicon word that occurs in the text and whose category is
    anything but exactly ['positive'] (another word, a misspelling, or a
    missing column) adds one to the negative counter and nothing to the
    positive one: in the loop body, wherever the entry stands in the
    lexicon, and for a row of the lexicon file carrying a new word. *)
Theorem non_positive_category_counts_negative :
  (forall (text : string) (pos_count neg_count : Z) (word : string)
          (category : option string),
     str_in word text = true -> category <> Some "positive" ->
     count_step text (pos_count, neg_count) (word, category) =
     (pos_count, neg_count + 1)) /\
  (forall (d1 d2 : Dict) (word : string) (category : option string) (text : string),
     str_in word text = true -> category <> Some "positive" ->
     sentiment_counts (d1 ++ (word, category) :: d2)%list text =
     ((sentiment_counts (d1 ++ d2)%list text).1,
      (sentiment_counts (d1 ++ d2)%list text).2 + 1)) /\
  (forall (rows : list CsvRow) (row : CsvRow) (text : string),
     str_truthy (row_word row) = true ->
     dict_get (load_word_dict rows) (row_word row) = None ->
     str_in (row_word row) text = true ->
     row_category row <> Some "positive" ->
     sentiment_counts (load_word_dict (rows ++ [row])) text =
     ((sentiment_counts (load_word_dict rows) text).1,
      (sentiment_counts (load_word_dict rows) text).2 + 1)).
Proof.
  split; [|split].
  - intros text p n word category Hin Hcat. unfold count_step.
    by rewrite Hin, (category_eq_false _ Hcat).
  - apply counts_insert.
  - intros rows row text Hw Hfresh Hin Hcat.
    rewrite load_word_dict_snoc. unfold load_step. rewrite Hw. cbn [negb].
    rewrite (dict_setitem_fresh _ _ _ Hfresh).
    rewrite (counts_insert _ [] _ _ _ Hin Hcat). by rewrite app_nil_r.
Qed.

Lemma non_positive_category_counts_negative_witness :
  count_step "sad day" (0, 0) ("sad", Some "negative") = (0, 1) /\
  sentiment_counts [("joy", Some "positive"); ("day", Some "Positive"); ("sad", None)]
    "sad day" = (0, 2) /\
  sentiment_counts
    (load_word_dict [mkCsvRow "joy" (Some "positive"); mkCsvRow "sad" (Some "negativ")])
    "sad joy" = (1, 1).
Proof.
  destruct non_positive_category_counts_negative as (Hstep & Hdict & Hrow).
  split; [|split].
  - apply (Hstep "sad day" 0 0 "sad" (Some "negative")); [reflexivity | discriminate].
  - apply (Hdict [("joy", Some "positive")] [("sad", None)] "day" (Some "Positive")
             "sad day"); [reflexivity | discriminate].
  - apply (Hrow [mkCsvRow "joy" (Some "positive")] (mkCsvRow "sad" (Some "negativ"))
             "sad joy"); [reflexivity | reflexivity | reflexivity | discriminate].
Defined.

(** ** Paths *)

Lemma string_of_uint_head (d : Decimal.uint) :
  exists c rest,
    NilZero.string_of_uint d = String c rest /\ is_digit_or_minus c = true.
Proof. destruct d; simpl; eexists _, _; (split; reflexivity). Qed.

(** The decimal form of an integer starts with a digit or a minus sign. *)
Lemma str_of_int_head (n : Z) :
  exists c rest, str_of_int n = String c rest /\ is_digit_or_minus c = true.
Proof.
  unfold str_of_int. destruct (Z.to_int n) as [d|d]; simpl.
  - apply string_of_uint_head.
  - by eexists _, _.
Qed.

Lemma append_inv_head (p s t : string) : p ++ s = p ++ t -> s = t.
Proof.
  induction p as [|a p IH]; [done|].
  rewrite !append_cons. intros H. apply IH. congruence.
Qed.

(** A user's draft path is never one of that user's permanent paths. *)
Lemma tmp_path_ne_final_path (uid pid : Z) :
  tmp_path_of uid <> final_path_of uid pid.
Proof.
  unfold tmp_path_of, final_path_of. intros H.
  apply (append_inv_head "static/") in H.
  apply append_inv_head in H.
  change "_tmp.png" with ("_" ++ "tmp.png") in H.
  apply (append_inv_head "_") in H.
  destruct (str_of_int_head pid) as (c & rest & Heq & Hc).
  rewrite Heq, append_cons in H. injection H as <- _. discriminate.
Qed.

(** The decimal form determines the integer. *)
Lemma to_int_not_nil (n : Z) :
  Z.to_int n <> Decimal.Pos Decimal.Nil /\ Z.to_int n <> Decimal.Neg Decimal.Nil.
Proof.
  destruct n as [|p|p]; simpl; (split; [|]); try discriminate;
    intros H; injection H as H; by apply (Unsigned.to_uint_nonnil p).
Qed.

Lemma str_of_int_inj (a b : Z) : str_of_int a = str_of_int b -> a = b.
Proof.
  unfold str_of_int. intros H.
  destruct (to_int_not_nil a) as [Ha1 Ha2], (to_int_not_nil b) as [Hb1 Hb2].
  apply DecimalZ.to_int_inj.
  assert (Some (Z.to_int a) = Some (Z.to_int b)) as [= ->]; [|done].
  rewrite <- (NilZero.isi _ Ha1 Ha2), <- (NilZero.isi _ Hb1 Hb2). by rewrite H.
Qed.

Lemma length_append (s t : string) :
  String.length (s ++ t) = (String.length s + String.length t)%nat.
Proof. induction s as [|a s IH]; [done|]. rewrite append_cons. cbn. by rewrite IH. Qed.

Lemma append_inv_tail (s t r : string) : s ++ r = t ++ r -> s = t.
Proof.
  revert t. induction s as [|a s IH]; intros [|b t] H.
  - done.
  - apply (f_equal String.length) in H.
    rewrite !length_append in H. cbn in H. lia.
  - apply (f_equal String.length) in H.
    rewrite !length_append in H. cbn in H. lia.
  - rewrite !append_cons in H. injection H as -> H. f_equal. by apply IH.
Qed.

Lemma final_path_of_inj_user (u1 u2 pid : Z) :
  final_path_of u1 pid = final_path_of u2 pid -> u1 = u2.
Proof.
  unfold final_path_of. intros H.
  apply (append_inv_head "static/") in H.
  apply append_inv_tail in H. by apply str_of_int_inj.
Qed.

(** ** Serving authenticated requests *)

(** A request with an allowed method from a logged-in user reaches the
    body of the view with that user as [current_user]. *)
Lemma serve_route (methods : list string)
    (view : User.t -> Request -> M Response)
    (req : Request) (w : World) (u : User.t) :
  method req ∈ allowed_methods methods ->
  session_user_id req = Some (User.id u) ->
  users (db w) !! User.id u = Some u ->
  serve (route methods (login_required view)) req w = serve (view u) req w.
Proof.
  intros Hm Hs Hu. unfold serve, route, login_required.
  rewrite (bool_decide_eq_true_2 _ Hm), Hs.
  unfold bind, load_user, gets. cbn. by rewrite Hu.
Qed.

(** Without a session user nothing is served and nothing changes. *)
Lemma serve_anonymous (methods : list string)
    (view : User.t -> Request -> M Response) (req : Request) (w : World) :
  method req ∈ allowed_methods methods ->
  session_user_id req = None ->
  serve (route methods (login_required view)) req w =
  (ErrorPage 401 "Unauthorized", w).
Proof.
  intros Hm Hs. unfold serve, route, login_required.
  by rewrite (bool_decide_eq_true_2 _ Hm), Hs.
Qed.

(** A method the rule does not list never reaches the view. *)
Lemma serve_method_not_allowed (methods : list string)
    (view : Request -> M Response) (req : Request) (w : World) :
  method req ∉ allowed_methods methods ->
  serve (route methods view) req w = (ErrorPage 405 "MethodNotAllowed", w).
Proof.
  intros Hm. unfold serve, route. by rewrite (bool_decide_eq_false_2 _ Hm).
Qed.

Lemma newimage_allowed (m : string) :
  m ∈ ["GET"; "POST"] -> m ∈ allowed_methods ["GET"; "POST"].
Proof. intros H. change (m ∈ "HEAD" :: ["GET"; "POST"]). by apply list_elem_of_further. Qed.

Lemma post_allowed (m : string) : m = "POST" -> m ∈ allowed_methods ["POST"].
Proof. intros ->. apply (bool_decide_unpack _). exact I. Qed.

Lemma get_allowed (m : string) : m = "GET" -> m ∈ allowed_methods ["GET"].
Proof. intros ->. apply (bool_decide_unpack _). exact I. Qed.

(** The example worlds are well formed. *)
Lemma world0_ok : tables_ok (db world0).
Proof. split; apply (bool_decide_unpack _); vm_compute; exact I. Qed.

Lemma world1_ok : tables_ok (db world1).
Proof. split; apply (bool_decide_unpack _); vm_compute; exact I. Qed.

Lemma world2_ok : tables_ok (db world2).
Proof. split; apply (bool_decide_unpack _); vm_compute; exact I. Qed.

(** ** The confirm branch *)

Lemma confirm_branch (w : World) (req : Request) (current_user : User.t)
    (action post_id_str : string) (pid : Z) (post : Post.t)
    (data : list Byte.byte) :
  tables_ok (db w) ->
  method req = "POST" ->
  session_user_id req = Some (User.id current_user) ->
  users (db w) !! User.id current_user = Some current_user ->
  multidict_get (form req) "action" = Some action ->
  action <> "redo" ->
  multidict_get (form req) "post_id" = Some post_id_str ->
  int_of_str post_id_str = Some pid ->
  posts (db w) !! pid = Some post ->
  files w !! tmp_path_of (User.id current_user) = Some data ->
  serve confirm_image req w =
  (Redirect "index" [], confirmed_world w (User.id current_user) pid data).
Proof.
  intros [Hposts _] Hm Hs Hu Ha Hne Hp Hint Hpost Hfile.
  unfold confirm_image.
  rewrite (serve_route _ _ _ _ _ (post_allowed _ Hm) Hs Hu).
  unfold serve, confirm_image_body, form_item, bind. rewrite Ha. cbn.
  destruct (String.eqb_spec action "redo") as [|_]; [done|].
  rewrite Hp. cbn. unfold py_int. rewrite Hint. cbn.
  unfold Post_query_get_or_404, Post_query_get, bind, gets. cbn.
  rewrite Hpost. cbn.
  destruct (Hposts _ _ Hpost) as [Hid _]. rewrite Hid.
  unfold os_rename, bind, gets. cbn. rewrite Hfile. cbn.
  reflexivity.
Qed.

(** Closing the side conditions of a statement at a concrete world. *)
Ltac tables_ok_by_evaluation :=
  split; apply (bool_decide_unpack _); vm_compute; exact I.

(** C6. A confirm action carrying the identifier of an existing post, sent
    by a user whose draft file exists, redirects to the index; afterwards
    the draft path is gone, the permanent path holds the draft's bytes,
    every other file is as before, the post's stored image path is the
    permanent path, every other post and every user is as before, and the
    change was committed once. *)
Theorem confirm_promotes_draft (w : World) (req : Request) (current_user : User.t)
    (post_id_str : string) (pid : Z) (post : Post.t) (data : list Byte.byte) :
  tables_ok (db w) ->
  method req = "POST" ->
  session_user_id req = Some (User.id current_user) ->
  users (db w) !! User.id current_user = Some current_user ->
  multidict_get (form req) "action" = Some "confirm" ->
  multidict_get (form req) "post_id" = Some post_id_str ->
  int_of_str post_id_str = Some pid ->
  posts (db w) !! pid = Some post ->
  files w !! tmp_path_of (User.id current_user) = Some data ->
  let tmp_path := tmp_path_of (User.id current_user) in
  let final_path := final_path_of (User.id current_user) pid in
  let '(resp, w') := serve confirm_image req w in
  resp = Redirect "index" [] /\
  files w' !! tmp_path = None /\
  files w' !! final_path = Some data /\
  (forall path, path <> tmp_path -> path <> final_path ->
     files w' !! path = files w !! path) /\
  posts (db w') !! pid = Some (Post.with_image_path (Some final_path) post) /\
  (forall k, k <> pid -> posts (db w') !! k = posts (db w) !! k) /\
  users (db w') = users (db w) /\
  commit_log w' = db w' :: commit_log w.
Proof.
  intros Hok Hm Hs Hu Ha Hp Hint Hpost Hfile tmp_path final_path.
  rewrite (confirm_branch w req current_user "confirm" post_id_str pid post data)
    by done.
  assert (Hne : tmp_path <> final_path) by apply tmp_path_ne_final_path.
  unfold confirmed_world. cbn. fold tmp_path final_path.
  split; [done|].
  split; [by rewrite lookup_insert_ne, lookup_delete_eq|].
  split; [by rewrite lookup_insert_eq|].
  split; [intros path H1 H2; by rewrite lookup_insert_ne, lookup_delete_ne|].
  split; [by rewrite lookup_alter_eq, Hpost|].
  split; [intros k Hk; by rewrite lookup_alter_ne|].
  done.
Qed.

Lemma confirm_promotes_draft_witness :
  let '(resp, w') := serve confirm_image (bob_confirms "2") world2 in
  resp = Redirect "index" [] /\
  files w' !! "static/2_tmp.png" = None /\
  files w' !! "static/2_2.png" = Some png /\
  (forall path, path <> "static/2_tmp.png" -> path <> "static/2_2.png" ->
     files w' !! path = files world2 !! path) /\
  posts (db w') !! 2 = Some (Post.mk 2 "a sad day" 1000 2 (Some "static/2_2.png")) /\
  (forall k, k <> 2 -> posts (db w') !! k = posts (db world2) !! k) /\
  users (db w') = users (db world2) /\
  commit_log w' = db w' :: commit_log world2.
Proof.
  apply (confirm_promotes_draft world2 (bob_confirms "2") bob "2" 2 post2 png).
  - tables_ok_by_evaluation.
  - reflexivity.
  - reflexivity.
  - vm_compute. reflexivity.
  - reflexivity.
  - reflexivity.
  - vm_compute. reflexivity.
  - vm_compute. reflexivity.
  - vm_compute. reflexivity.
Defined.

(** C9. In [confirm_image] the action ["redo"], and no other, answers with
    the redirect to [newimage]; any other action value takes the confirm
    path: it never redirects to [newimage], it reads [post_id] (a missing
    field is a bad request), and with an existing post and a draft file it
    answers with the redirect to the index, whatever the action value was,
    and afterwards the draft path is gone, the permanent path holds the
    draft's bytes, the stored post is the old row with the permanent path
    as its image path, and this was committed once. *)
Theorem only_redo_triggers_redo (w : World) (req : Request) (current_user : User.t)
    (action : string) :
  tables_ok (db w) ->
  method req = "POST" ->
  session_user_id req = Some (User.id current_user) ->
  users (db w) !! User.id current_user = Some current_user ->
  multidict_get (form req) "action" = Some action ->
  (action = "redo" ->
   forall content, multidict_get (form req) "content" = Some content ->
     serve confirm_image req w = (Redirect "newimage" [("content", content)], w)) /\
  (action <> "redo" ->
   (forall values, (serve confirm_image req w).1 <> Redirect "newimage" values) /\
   (multidict_get (form req) "post_id" = None ->
      serve confirm_image req w = (ErrorPage 400 "BadRequestKeyError", w)) /\
   (forall post_id_str pid post data,
      multidict_get (form req) "post_id" = Some post_id_str ->
      int_of_str post_id_str = Some pid ->
      posts (db w) !! pid = Some post ->
      files w !! tmp_path_of (User.id current_user) = Some data ->
      let tmp_path := tmp_path_of (User.id current_user) in
      let final_path := final_path_of (User.id current_user) pid in
      let w' := (serve confirm_image req w).2 in
      serve confirm_image req w =
      (Redirect "index" [], confirmed_world w (User.id current_user) pid data) /\
      files w' !! tmp_path = None /\
      files w' !! final_path = Some data /\
      (forall path, path <> tmp_path -> path <> final_path ->
         files w' !! path = files w !! path) /\
      posts (db w') !! pid =
        Some (Post.mk (Post.id post) (Post.content post) (Post.date_created post)
                (Post.user_id post) (Some final_path)) /\
      (forall k, k <> pid -> posts (db w') !! k = posts (db w) !! k) /\
      users (db w') = users (db w) /\
      commit_log w' = db w' :: commit_log w)).
Proof.
  intros Hok Hm Hs Hu Ha. split.
  - intros -> content Hc.
    unfold confirm_image.
    rewrite (serve_route _ _ _ _ _ (post_allowed _ Hm) Hs Hu).
    unfold serve, confirm_image_body, form_item, bind. rewrite Ha. cbn.
    by rewrite Hc.
  - intros Hne. split; [|split].
    + intros values.
      unfold confirm_image.
      rewrite (serve_route _ _ _ _ _ (post_allowed _ Hm) Hs Hu).
      unfold serve, confirm_image_body, form_item, bind. rewrite Ha. cbn.
      destruct (String.eqb_spec action "redo") as [|_]; [done|].
      destruct (multidict_get (form req) "post_id") as [s|]; cbn; [|done].
      unfold py_int. destruct (int_of_str s) as [pid|]; cbn; [|done].
      unfold Post_query_get_or_404, Post_query_get, bind, gets. cbn.
      destruct (posts (db w) !! pid) as [post|]; cbn; [|done].
      unfold os_rename, bind, gets. cbn.
      destruct (files w !! tmp_path_of (User.id current_user)); cbn; done.
    + intros Hp.
      unfold confirm_image.
      rewrite (serve_route _ _ _ _ _ (post_allowed _ Hm) Hs Hu).
      unfold serve, confirm_image_body, form_item, bind. rewrite Ha. cbn.
      destruct (String.eqb_spec action "redo") as [|_]; [done|].
      by rewrite Hp.
    + intros s pid post data Hp Hint Hpost Hfile tmp_path final_path w'.
      assert (Hserve : serve confirm_image req w =
                (Redirect "index" [],
                 confirmed_world w (User.id current_user) pid data))
        by by apply (confirm_branch w req current_user action s pid post data).
      assert (Hpaths : tmp_path <> final_path) by apply tmp_path_ne_final_path.
      split; [exact Hserve|].
      subst w'. rewrite Hserve. unfold confirmed_world. cbn.
      fold tmp_path final_path.
      split; [by rewrite lookup_insert_ne, lookup_delete_eq|].
      split; [by rewrite lookup_insert_eq|].
      split; [intros path H1 H2; by rewrite lookup_insert_ne, lookup_delete_ne|].
      split; [by rewrite lookup_alter_eq, Hpost|].
      split; [intros k Hk; by rewrite lookup_alter_ne|].
      done.
Qed.

Lemma only_redo_triggers_redo_witness :
  serve confirm_image bob_redoes world2 =
    (Redirect "newimage" [("content", "a happy day")], world2) /\
  let '(resp, w') := serve confirm_image bob_sends_other_action world2 in
  resp = Redirect "index" [] /\
  files w' !! "static/2_tmp.png" = None /\
  files w' !! "static/2_2.png" = Some png /\
  files w' !! "static/1_1.png" = files world2 !! "static/1_1.png" /\
  posts (db w') !! 2 = Some (Post.mk 2 "a sad day" 1000 2 (Some "static/2_2.png")) /\
  posts (db w') !! 1 = posts (db world2) !! 1 /\
  users (db w') = users (db world2) /\
  commit_log w' = db w' :: commit_log world2.
Proof.
  split.
  - refine (proj1 (only_redo_triggers_redo world2 bob_redoes bob "redo"
                     _ _ _ _ _) _ "a happy day" _).
    + tables_ok_by_evaluation.
    + reflexivity.
    + reflexivity.
    + vm_compute. reflexivity.
    + reflexivity.
    + reflexivity.
    + reflexivity.
  - destruct (proj2 (proj2 (proj2 (only_redo_triggers_redo world2
                bob_sends_other_action bob "Redo"
                ltac:(tables_ok_by_evaluation) eq_refl eq_refl
                ltac:(vm_compute; reflexivity) eq_refl)
                ltac:(discriminate)))
              "2" 2 post2 png eq_refl ltac:(vm_compute; reflexivity)
              ltac:(vm_compute; reflexivity) ltac:(vm_compute; reflexivity))
      as (Hserve & Htmp & Hfinal & Hframe & Hpost & Hposts & Husers & Hlog).
    rewrite Hserve in Htmp, Hfinal, Hframe, Hpost, Hposts, Husers, Hlog.
    rewrite Hserve.
    split; [reflexivity|].
    split; [exact Htmp|].
    split; [exact Hfinal|].
    split; [apply Hframe; discriminate|].
    split; [exact Hpost|].
    split; [apply Hposts; discriminate|].
    split; [exact Husers | exact Hlog].
Defined.


(** C7. A delete request by an authenticated user for an existing post of
    another user answers with the redirect to the edit page and leaves
    the whole world as it was; the owner's request removes exactly that
    post in one commit; so after a delete request the post is gone only if
    the requesting user owns it. *)
Theorem delete_only_by_owner (w : World) (req : Request) (pid : Z)
    (current_user : User.t) (post : Post.t) :
  tables_ok (db w) ->
  method req = "GET" ->
  session_user_id req = Some (User.id current_user) ->
  users (db w) !! User.id current_user = Some current_user ->
  posts (db w) !! pid = Some post ->
  (Post.user_id post <> User.id current_user ->
   serve (delete_view pid) req w = (Redirect "edit" [], w)) /\
  (Post.user_id post = User.id current_user ->
   serve (delete_view pid) req w =
   (Redirect "edit" [],
    let t := set_posts (delete pid) (db w) in
    mkWorld t (t :: commit_log w) (files w) (flashes w) (clock w))) /\
  (posts (db (serve (delete_view pid) req w).2) !! pid = None ->
   Post.user_id post = User.id current_user).
Proof.
  intros [Hposts Husers] Hm Hs Hu Hp.
  unfold delete_view. rewrite (serve_route _ _ _ _ _ (get_allowed _ Hm) Hs Hu).
  unfold serve, delete_body, Post_query_get_or_404, Post_query_get, bind, gets, ret.
  cbn. rewrite Hp. cbn.
  destruct (Hposts _ _ Hp) as [Hid _]. rewrite Hid.
  destruct (Z.eqb_spec (Post.user_id post) (User.id current_user)) as [Hown|Hown]; cbn.
  - by repeat split.
  - split; [done|]. split; [done|]. intros H. congruence.
Qed.

Lemma delete_only_by_owner_witness :
  serve (delete_view 1) bob_visits world2 = (Redirect "edit" [], world2) /\
  posts (db (serve (delete_view 1) alice_request world2).2) !! 1 = None /\
  posts (db (serve (delete_view 1) alice_request world2).2) !! 2 = Some post2.
Proof.
  split; [|split].
  - refine (proj1 (delete_only_by_owner world2 bob_visits 1 bob post1 _ _ _ _ _) _).
    + tables_ok_by_evaluation.
    + reflexivity.
    + reflexivity.
    + vm_compute. reflexivity.
    + vm_compute. reflexivity.
    + vm_compute. discriminate.
  - rewrite (proj1 (proj2 (delete_only_by_owner world2 alice_request 1 alice post1
               ltac:(tables_ok_by_evaluation) eq_refl eq_refl
               ltac:(vm_compute; reflexivity) ltac:(vm_compute; reflexivity)))
               eq_refl).
    vm_compute. reflexivity.
  - vm_compute. reflexivity.
Defined.

Lemma no_posts_left (uid : Z) (m : gmap Z Post.t) :
  filter (fun kv : Z * Post.t => Post.user_id kv.2 = uid)
    (filter (fun kv : Z * Post.t => Post.user_id kv.2 ≠ uid) m) = ∅.
Proof.
  apply map_empty. intros k. apply map_lookup_filter_None. right.
  intros p Hp. apply map_lookup_filter_Some in Hp as [_ Hne]. cbn in *. done.
Qed.

(** Account deletion as one state change. *)
Lemma user_delete_result (w : World) (req : Request) (current_user : User.t) :
  method req = "POST" ->
  session_user_id req = Some (User.id current_user) ->
  users (db w) !! User.id current_user = Some current_user ->
  serve user_delete req w =
  (Redirect "login" [],
   let t := account_deleted_tables (User.id current_user) (db w) in
   mkWorld t (t :: commit_log w) (files w)
     (flashes w ++ ["アカウントと投稿がすべて削除されました。"]) (clock w)).
Proof.
  intros Hm Hs Hu.
  unfold user_delete. rewrite (serve_route _ _ _ _ _ (post_allowed _ Hm) Hs Hu).
  unfold serve, user_delete_body, bind. cbn.
  unfold session_commit. cbn. unfold user_has_posts. cbn.
  by rewrite no_posts_left.
Qed.

(** C8. Account deletion by an authenticated user answers with the
    redirect to the login page; afterwards none of that user's posts and no
    record of the user is stored, every post of another user and every
    other user record is as before, no post appears, and the committed
    state changed exactly once, to the state with both deletions done. *)
Theorem user_delete_cascades (w : World) (req : Request) (current_user : User.t) :
  method req = "POST" ->
  session_user_id req = Some (User.id current_user) ->
  users (db w) !! User.id current_user = Some current_user ->
  let uid := User.id current_user in
  let '(resp, w') := serve user_delete req w in
  resp = Redirect "login" [] /\
  (forall pid post, posts (db w) !! pid = Some post -> Post.user_id post = uid ->
     posts (db w') !! pid = None) /\
  users (db w') !! uid = None /\
  (forall pid post, posts (db w) !! pid = Some post -> Post.user_id post <> uid ->
     posts (db w') !! pid = Some post) /\
  (forall pid, posts (db w) !! pid = None -> posts (db w') !! pid = None) /\
  (forall k, k <> uid -> users (db w') !! k = users (db w) !! k) /\
  commit_log w' = db w' :: commit_log w /\
  files w' = files w.
Proof.
  intros Hm Hs Hu uid.
  rewrite (user_delete_result w req current_user Hm Hs Hu). cbn. fold uid.
  split; [done|].
  split.
  { intros pid post Hp Hown. apply map_lookup_filter_None. right.
    intros p' Hp'. cbn. congruence. }
  split; [apply lookup_delete_eq|].
  split; [intros pid post Hp Hown; by apply map_lookup_filter_Some|].
  split; [intros pid Hp; apply map_lookup_filter_None; by left|].
  split; [intros k Hk; by apply lookup_delete_ne|].
  done.
Qed.

Lemma user_delete_cascades_witness :
  let '(resp, w') := serve user_delete bob_request world2 in
  resp = Redirect "login" [] /\
  (forall pid post, posts (db world2) !! pid = Some post -> Post.user_id post = 2 ->
     posts (db w') !! pid = None) /\
  users (db w') !! 2 = None /\
  (forall pid post, posts (db world2) !! pid = Some post -> Post.user_id post <> 2 ->
     posts (db w') !! pid = Some post) /\
  (forall pid, posts (db world2) !! pid = None -> posts (db w') !! pid = None) /\
  (forall k, k <> 2 -> users (db w') !! k = users (db world2) !! k) /\
  commit_log w' = db w' :: commit_log world2 /\
  files w' = files world2.
Proof.
  apply (user_delete_cascades world2 bob_request bob).
  - reflexivity.
  - reflexivity.
  - vm_compute. reflexivity.
Defined.

(** ** Image generation that fails *)

(** C1, as amended. When the Image Requester returns no bytes, [newimage]
    flashes the failure message and redirects to the index, writes no file
    and changes no record that existed.  On the existing-post path nothing
    stored changes at all.  On the new-post path the post built from the
    submitted content was inserted and committed before the image was
    requested, under a key that was free, and it stays. *)
Theorem newimage_failure_effects (word_dict : Dict)
    (text_to_image : string -> option (list Byte.byte))
    (w : World) (req : Request) (current_user : User.t) :
  tables_ok (db w) ->
  method req ∈ ["GET"; "POST"] ->
  session_user_id req = Some (User.id current_user) ->
  users (db w) !! User.id current_user = Some current_user ->
  (forall post_id_str pid post,
     multidict_get (args req) "post_id" = Some post_id_str ->
     str_truthy post_id_str = true ->
     int_of_str post_id_str = Some pid ->
     posts (db w) !! pid = Some post ->
     bytes_truthy (generate_image text_to_image
       (generate_prompt (analyze_sentiment word_dict (Post.content post)))) = None ->
     serve (newimage word_dict text_to_image) req w =
     (Redirect "index" [], with_flash failure_message w)) /\
  (forall content,
     opt_truthy (multidict_get (args req) "post_id") = false ->
     multidict_get (form req) "content" = Some content ->
     bytes_truthy (generate_image text_to_image
       (generate_prompt (analyze_sentiment word_dict content))) = None ->
     posts (db w) !! post_seq (db w) = None /\
     serve (newimage word_dict text_to_image) req w =
     (Redirect "index" [],
      let t := tables_with_new_post (db w) content (clock w) (User.id current_user) in
      mkWorld t (t :: commit_log w) (files w) (flashes w ++ [failure_message])
        (clock w))).
Proof.
  intros [Hposts _] Hm Hs Hu. apply newimage_allowed in Hm. split.
  - intros s pid post Ha Ht Hint Hpost Hfail.
    unfold newimage. rewrite (serve_route _ _ _ _ _ Hm Hs Hu).
    unfold serve, newimage_body, bind. rewrite Ha. cbn. rewrite Ht.
    unfold Post_query_get_str. rewrite Hint.
    unfold Post_query_get, gets. cbn. rewrite Hpost. cbn.
    rewrite Hfail. cbn. done.
  - intros content Ha Hc Hfail. split.
    { destruct (posts (db w) !! post_seq (db w)) as [p|] eqn:Hp; [|done].
      apply Hposts in Hp as [_ Hlt]. lia. }
    unfold newimage. rewrite (serve_route _ _ _ _ _ Hm Hs Hu).
    unfold serve, newimage_body, bind. rewrite Ha. rewrite Hc. cbn.
    rewrite Hfail. cbn. done.
Qed.

Lemma newimage_failure_effects_witness :
  serve (newimage lexicon image_fails) (bob_gets "2") world2 =
    (Redirect "index" [], with_flash failure_message world2) /\
  serve (newimage lexicon image_fails) bob_drafts world1 =
    (Redirect "index" [],
     let t := tables_with_new_post (db world1) "a sad day" 1000 2 in
     mkWorld t (t :: commit_log world1) (files world1)
       (flashes world1 ++ [failure_message]) 1000).
Proof.
  split.
  - refine (proj1 (newimage_failure_effects lexicon image_fails world2
                     (bob_gets "2") bob _ _ _ _) "2" 2 post2 _ _ _ _ _).
    + tables_ok_by_evaluation.
    + apply (bool_decide_unpack _). exact I.
    + reflexivity.
    + vm_compute. reflexivity.
    + reflexivity.
    + reflexivity.
    + reflexivity.
    + vm_compute. reflexivity.
    + reflexivity.
  - refine (proj2 (proj2 (newimage_failure_effects lexicon image_fails world1
                     bob_drafts bob _ _ _ _) "a sad day" _ _ _)).
    + tables_ok_by_evaluation.
    + apply (bool_decide_unpack _). exact I.
    + reflexivity.
    + vm_compute. reflexivity.
    + reflexivity.
    + reflexivity.
    + reflexivity.
Defined.

(** C1 as stated fails on the new-post path: the Image Requester returns
    nothing, yet post 2, absent before the request, is stored after it. *)
Lemma newimage_failure_keeps_new_post :
  generate_image image_fails
    (generate_prompt (analyze_sentiment lexicon "a sad day")) = None /\
  multidict_get (args bob_drafts) "post_id" = None /\
  posts (db world1) !! 2 = None /\
  posts (db (serve (newimage lexicon image_fails) bob_drafts world1).2) !! 2 =
    Some post2 /\
  db (serve (newimage lexicon image_fails) bob_drafts world1).2 <> db world1.
Proof.
  split; [reflexivity|]. split; [reflexivity|].
  split; [vm_compute; reflexivity|].
  assert (H : posts (db (serve (newimage lexicon image_fails) bob_drafts world1).2)
                !! 2 = Some post2) by (vm_compute; reflexivity).
  split; [exact H|].
  intros Heq. rewrite Heq in H. vm_compute in H. discriminate.
Qed.

(** ** Redo *)

(** The redirect issued by the redo branch, once followed, asks [newimage]
    for a new post whose content is read from the (empty) form: the INSERT
    violates NOT NULL, the request ends in an error and the world is as it
    was; the edited content is never scored and no image is requested. *)
Lemma redo_then_newimage_fails (word_dict : Dict)
    (text_to_image : string -> option (list Byte.byte))
    (w : World) (req : Request) (current_user : User.t) (content : string) :
  method req = "POST" ->
  session_user_id req = Some (User.id current_user) ->
  users (db w) !! User.id current_user = Some current_user ->
  multidict_get (form req) "action" = Some "redo" ->
  multidict_get (form req) "content" = Some content ->
  serve confirm_image req w = (Redirect "newimage" [("content", content)], w) /\
  serve (newimage word_dict text_to_image)
    (follow_redirect "newimage" [("content", content)] (session_user_id req)) w =
  (ErrorPage 500 "IntegrityError", w).
Proof.
  intros Hm Hs Hu Ha Hc. split.
  - unfold confirm_image.
    rewrite (serve_route _ _ _ _ _ (post_allowed _ Hm) Hs Hu).
    unfold serve, confirm_image_body, form_item, bind. rewrite Ha. cbn.
    by rewrite Hc.
  - unfold newimage.
    rewrite (serve_route _ _ _ _ current_user); [reflexivity| |done|done].
    apply (bool_decide_unpack _). exact I.
Qed.

(** C2 fails on the code: Bob, whose draft holds [png], redoes with edited
    content.  The handler redirects to [newimage]; the redirected request
    ends in an IntegrityError page, and the world, Bob's draft included, is
    what it was, although the Image Requester would have drawn [png']. *)
Theorem redo_does_not_regenerate :
  files world2 !! tmp_path_of 2 = Some png /\
  serve confirm_image bob_redoes world2 =
    (Redirect "newimage" [("content", "a happy day")], world2) /\
  serve (newimage lexicon image_ok')
    (follow_redirect "newimage" [("content", "a happy day")] (Some 2)) world2 =
    (ErrorPage 500 "IntegrityError", world2) /\
  image_ok' (generate_prompt (analyze_sentiment lexicon "a happy day")) = Some png'.
Proof.
  split; [vm_compute; reflexivity|].
  split; [|split; [|reflexivity]].
  - apply (redo_then_newimage_fails lexicon image_ok' world2 bob_redoes bob);
      first [reflexivity | vm_compute; reflexivity].
  - apply (redo_then_newimage_fails lexicon image_ok' world2 bob_redoes bob
             "a happy day"); first [reflexivity | vm_compute; reflexivity].
Qed.

(** ** Well-formedness is an invariant *)

Lemma tables_ok_new_post (t : Tables) (content : string) (now uid : Z) :
  tables_ok t -> tables_ok (tables_with_new_post t content now uid).
Proof.
  intros [Hp Hu]. split; [|done]. intros k p. cbn.
  destruct (decide (k = post_seq t)) as [->|Hne].
  - rewrite lookup_insert_eq. intros [= <-]. cbn. lia.
  - rewrite lookup_insert_ne by done. intros H. apply Hp in H. lia.
Qed.

Lemma tables_ok_set_image_path (t : Tables) (pid : Z) (path : option string) :
  tables_ok t -> tables_ok (set_posts (alter (Post.with_image_path path) pid) t).
Proof.
  intros [Hp Hu]. split; [|done]. intros k p. cbn.
  destruct (decide (k = pid)) as [->|Hne].
  - rewrite lookup_alter_eq. destruct (posts t !! pid) as [q|] eqn:Hq; [|done].
    intros [= <-]. by apply Hp in Hq.
  - rewrite lookup_alter_ne by done. apply Hp.
Qed.

Lemma tables_ok_delete_post (t : Tables) (pid : Z) :
  tables_ok t -> tables_ok (set_posts (delete pid) t).
Proof.
  intros [Hp Hu]. split; [|done]. intros k p. cbn.
  intros H. apply lookup_delete_Some in H as [_ H]. by apply Hp.
Qed.

Lemma tables_ok_account_deleted (t : Tables) (uid : Z) :
  tables_ok t -> tables_ok (account_deleted_tables uid t).
Proof.
  intros [Hp Hu]. split.
  - intros k p. cbn. intros H. apply map_lookup_filter_Some in H as [H _]. by apply Hp.
  - intros k u. cbn. intros H. apply lookup_delete_Some in H as [_ H]. by apply Hu.
Qed.

Lemma posts_view_tables_ok (req : Request) (w : World) :
  tables_ok (db w) -> tables_ok (db (serve posts_view req w).2).
Proof.
  intros Hok. unfold serve, posts_view, route, login_required.
  case_bool_decide; [|done].
  destruct (session_user_id req) as [uid|]; [|done].
  unfold bind, load_user, gets. cbn.
  destruct (users (db w) !! uid) as [u|]; [|done].
  unfold posts_body, form_item, bind.
  destruct (multidict_get (form req) "diary_entry") as [c|]; [|done]. cbn.
  case_bool_decide; [done|]. cbn.
  by apply (tables_ok_new_post (db w)).
Qed.

Lemma newimage_tables_ok (word_dict : Dict)
    (text_to_image : string -> option (list Byte.byte)) (req : Request) (w : World) :
  tables_ok (db w) -> tables_ok (db (serve (newimage word_dict text_to_image) req w).2).
Proof.
  intros Hok. unfold serve, newimage, route, login_required.
  case_bool_decide; [|done].
  destruct (session_user_id req) as [uid|]; [|done].
  unfold bind, load_user, gets. cbn.
  destruct (users (db w) !! uid) as [u|]; [|done].
  unfold newimage_body, bind.
  destruct (opt_truthy (multidict_get (args req) "post_id")).
  - unfold Post_query_get_str.
    destruct (int_of_str _) as [pid|]; [|done].
    unfold Post_query_get, gets. cbn.
    destruct (posts (db w) !! pid) as [post|]; [|done]. cbn.
    destruct (bytes_truthy _); done.
  - destruct (multidict_get (form req) "content") as [c|]; [|done]. cbn.
    destruct (bytes_truthy _); cbn; by apply (tables_ok_new_post (db w)).
Qed.

Lemma confirm_image_tables_ok (req : Request) (w : World) :
  tables_ok (db w) -> tables_ok (db (serve confirm_image req w).2).
Proof.
  intros Hok. unfold serve, confirm_image, route, login_required.
  case_bool_decide; [|done].
  destruct (session_user_id req) as [uid|]; [|done].
  unfold bind, load_user, gets. cbn.
  destruct (users (db w) !! uid) as [u|]; [|done].
  unfold confirm_image_body, form_item, bind.
  destruct (multidict_get (form req) "action") as [a|]; [|done]. cbn.
  destruct (String.eqb a "redo").
  { destruct (multidict_get (form req) "content"); done. }
  destruct (multidict_get (form req) "post_id") as [s|]; [|done]. cbn.
  unfold py_int. destruct (int_of_str s) as [pid|]; [|done]. cbn.
  unfold Post_query_get_or_404, Post_query_get, bind, gets. cbn.
  destruct (posts (db w) !! pid) as [post|]; [|done]. cbn.
  unfold os_rename, bind, gets. cbn.
  destruct (files w !! _); [|done]. cbn.
  by apply tables_ok_set_image_path.
Qed.

Lemma delete_view_tables_ok (pid : Z) (req : Request) (w : World) :
  tables_ok (db w) -> tables_ok (db (serve (delete_view pid) req w).2).
Proof.
  intros Hok. unfold serve, delete_view, route, login_required.
  case_bool_decide; [|done].
  destruct (session_user_id req) as [uid|]; [|done].
  unfold bind, load_user, gets. cbn.
  destruct (users (db w) !! uid) as [u|]; [|done].
  unfold delete_body, Post_query_get_or_404, Post_query_get, bind, gets. cbn.
  destruct (posts (db w) !! pid) as [post|]; [|done]. cbn.
  destruct (Post.user_id post =? User.id u); cbn; [|done].
  by apply tables_ok_delete_post.
Qed.

Lemma user_delete_tables_ok (req : Request) (w : World) :
  tables_ok (db w) -> tables_ok (db (serve user_delete req w).2).
Proof.
  intros Hok. unfold serve, user_delete, route, login_required.
  case_bool_decide; [|done].
  destruct (session_user_id req) as [uid|]; [|done].
  unfold bind, load_user, gets. cbn.
  destruct (users (db w) !! uid) as [u|]; [|done].
  unfold user_delete_body, bind. cbn.
  unfold session_commit. cbn. unfold user_has_posts. cbn.
  rewrite no_posts_left. cbn.
  by apply (tables_ok_account_deleted (db w)).
Qed.

Lemma step_tables_ok (word_dict : Dict) (w w' : World) :
  Step word_dict w w' -> tables_ok (db w) -> tables_ok (db w').
Proof.
  intros [req w0|tti req w0|req w0|pid req w0|req w0] Hok.
  - by apply posts_view_tables_ok.
  - by apply newimage_tables_ok.
  - by apply confirm_image_tables_ok.
  - by apply delete_view_tables_ok.
  - by apply user_delete_tables_ok.
Qed.

Lemma reachable_tables_ok (word_dict : Dict) (w0 w : World) :
  Reachable word_dict w0 w -> tables_ok (db w0) -> tables_ok (db w).
Proof.
  induction 1 as [|w1 w2 w3 Hstep _ IH]; [done|].
  intros Hok. apply IH. by apply (step_tables_ok word_dict w1).
Qed.

(** ** Image paths and ownership *)

(** Whoever confirms, the stored path carries the confirming user's id: a
    confirm by a user who does not own the post leaves the post with a
    path that is not the one named by its owner. *)
Lemma confirm_by_non_owner (w : World) (req : Request) (current_user : User.t)
    (action post_id_str : string) (pid : Z) (post : Post.t)
    (data : list Byte.byte) :
  tables_ok (db w) ->
  method req = "POST" ->
  session_user_id req = Some (User.id current_user) ->
  users (db w) !! User.id current_user = Some current_user ->
  multidict_get (form req) "action" = Some action ->
  action <> "redo" ->
  multidict_get (form req) "post_id" = Some post_id_str ->
  int_of_str post_id_str = Some pid ->
  posts (db w) !! pid = Some post ->
  files w !! tmp_path_of (User.id current_user) = Some data ->
  Post.user_id post <> User.id current_user ->
  ~ image_paths_named_by_owner (serve confirm_image req w).2.
Proof.
  intros Hok Hm Hs Hu Ha Hne Hp Hint Hpost Hfile Hown Hinv.
  rewrite (confirm_branch w req current_user action post_id_str pid post data)
    in Hinv by done.
  destruct Hok as [Hposts _]. destruct (Hposts _ _ Hpost) as [Hid _].
  specialize (Hinv pid (Post.with_image_path
    (Some (final_path_of (User.id current_user) pid)) post)).
  cbn in Hinv. rewrite lookup_alter_eq, Hpost in Hinv.
  specialize (Hinv eq_refl _ eq_refl). rewrite Hid in Hinv.
  apply final_path_of_inj_user in Hinv. congruence.
Qed.

(** C3 fails on the code: from a world without posts, Alice creates post 1,
    Bob drafts an image for an entry of his own and then confirms with
    [post_id = 1].  The world reached stores, for Alice's post 1, the path
    ["static/2_1.png"] named after Bob, not the path named by the post's
    owner; the invariant held in the initial world and is broken in a
    reachable one. *)
Theorem confirm_of_foreign_post_breaks_path_naming :
  let w3 := (serve confirm_image (bob_confirms "1") world2).2 in
  image_paths_named_by_owner world0 /\
  Reachable lexicon world0 w3 /\
  posts (db w3) !! 1 = Some (Post.with_image_path (Some "static/2_1.png") post1) /\
  Post.user_id post1 = User.id alice /\
  final_path_of (Post.user_id post1) (Post.id post1) = "static/1_1.png" /\
  ~ image_paths_named_by_owner w3.
Proof.
  intros w3.
  assert (Hpost : posts (db w3) !! 1 =
            Some (Post.with_image_path (Some "static/2_1.png") post1))
    by (vm_compute; reflexivity).
  split; [intros k p Hk; vm_compute in Hk; discriminate|].
  split.
  { eapply rtc_l; [apply (step_posts lexicon alice_posts world0)|].
    eapply rtc_l; [apply (step_newimage lexicon image_ok bob_drafts world1)|].
    eapply rtc_l; [apply (step_confirm_image lexicon (bob_confirms "1") world2)|].
    apply rtc_refl. }
  split; [exact Hpost|]. split; [reflexivity|]. split; [reflexivity|].
  intros Hinv. specialize (Hinv 1 _ Hpost _ eq_refl). vm_compute in Hinv.
  discriminate.
Qed.

(** * Further properties *)

(** ** The lexicon file *)

Lemma load_fold_key_iff (rows : list CsvRow) (d : Dict) (k : string) :
  NoDup (map fst d) ->
  k ∈ map fst (fold_left load_step rows d) <->
  k ∈ map fst d \/ (k <> "" /\ k ∈ map row_word rows).
Proof.
  revert d. induction rows as [|r rows IH]; intros d Hnd; cbn [fold_left map].
  - rewrite elem_of_nil. tauto.
  - unfold load_step at 2.
    destruct (str_truthy (row_word r)) eqn:Ht; cbn [negb].
    + destruct (dict_setitem_keys d (row_word r) (row_category r) Hnd) as [Hnd' Hk].
      rewrite (IH _ Hnd'), Hk, elem_of_cons.
      assert (row_word r <> "") by (intros Heq; rewrite Heq in Ht; discriminate).
      split; [|tauto]. intros [[->|?]|[? ?]]; tauto.
    + rewrite (IH _ Hnd), elem_of_cons.
      assert (row_word r = "") by (destruct (row_word r); [done | discriminate]).
      split; [tauto|]. intros [?|[? [->|?]]]; tauto.
Qed.

Ltac store_ok_by_evaluation :=
  split; [tables_ok_by_evaluation|];
  split; [|split]; apply (bool_decide_unpack _); vm_compute; exact I.

(** X1. The lexicon built from the file has no repeated word, and its words
    are exactly the non-empty words of the rows. *)
Theorem lexicon_keys (rows : list CsvRow) :
  NoDup (map fst (load_word_dict rows)) /\
  (forall k, k ∈ map fst (load_word_dict rows) <->
             k <> "" /\ k ∈ map row_word rows).
Proof.
  split; [apply load_word_dict_keys|].
  intros k. rewrite load_word_dict_fold, load_fold_key_iff by constructor.
  cbn [map]. rewrite elem_of_nil. tauto.
Qed.

Lemma dict_get_setitem (d : Dict) (k k' : string) (v : option string) :
  dict_get (dict_setitem d k v) k' =
  if String.eqb k k' then Some v else dict_get d k'.
Proof.
  induction d as [|[k0 v0] d IH]; simpl.
  - done.
  - destruct (String.eqb_spec k0 k) as [->|Hne]; simpl.
    + by destruct (String.eqb k k').
    + rewrite IH. destruct (String.eqb_spec k0 k') as [->|Hne'].
      * destruct (String.eqb_spec k k'); [congruence | done].
      * done.
Qed.

Lemma dict_get_load_fold (rows : list CsvRow) (d : Dict) (word : string) :
  word <> "" ->
  dict_get (fold_left load_step rows d) word =
  match last_category rows word with
  | Some category => Some category
  | None => dict_get d word
  end.
Proof.
  intros Hw. revert d. induction rows as [|row rows IH]; intros d; simpl; [done|].
  rewrite IH. destruct (last_category rows word); [done|].
  unfold load_step. destruct (str_truthy (row_word row)) eqn:Ht; cbn [negb].
  - rewrite dict_get_setitem. by destruct (String.eqb (row_word row) word).
  - destruct (String.eqb_spec (row_word row) word) as [Heq|_]; [|done].
    rewrite Heq in Ht. destruct word; [congruence | discriminate].
Qed.

(** X2. Looking a word up in the loaded lexicon gives the category of the
    last row of the file carrying that word; the empty word is never a
    key. *)
Theorem load_word_dict_last_row_wins (rows : list CsvRow) (word : string) :
  dict_get (load_word_dict rows) word =
  if str_truthy word then last_category rows word else None.
Proof.
  destruct word as [|a s]; simpl.
  - destruct (dict_get (load_word_dict rows) "") as [c|] eqn:Hget; [|done].
    exfalso. destruct (load_word_dict_keys rows) as [_ Hne].
    apply (Hne ""); [|done].
    clear Hne. induction (load_word_dict rows) as [|[k v] d IH]; simpl in *; [done|].
    destruct (String.eqb_spec k "") as [->|_]; [left | right; by apply IH].
  - unfold load_word_dict. rewrite dict_get_load_fold by done.
    by destruct (last_category rows (String a s)).
Qed.

Lemma count_step_comm (text : string) (c : Z * Z) (x y : string * option string) :
  count_step text (count_step text c x) y = count_step text (count_step text c y) x.
Proof.
  destruct c as [p n], x as [wx cx], y as [wy cy]. unfold count_step.
  destruct (str_in wx text), (category_eq cx "positive"),
    (str_in wy text), (category_eq cy "positive"); done.
Qed.

(** X3. The order in which the lexicon is iterated does not matter: two
    lexicons with the same entries in another order give the same counters
    and the same score. *)
Theorem analyze_sentiment_order_irrelevant (d d' : Dict) (text : string) :
  Permutation d d' ->
  sentiment_counts d text = sentiment_counts d' text /\
  analyze_sentiment d text = analyze_sentiment d' text.
Proof.
  intros Hperm.
  assert (H : forall c, fold_left (count_step text) d c = fold_left (count_step text) d' c).
  { induction Hperm as [|x l l' _ IH|x y l|l l' l'' _ IH1 _ IH2]; intros c; simpl.
    - done.
    - apply IH.
    - by rewrite count_step_comm.
    - by rewrite IH1. }
  unfold analyze_sentiment, sentiment_counts. by rewrite !H.
Qed.

Lemma analyze_sentiment_order_irrelevant_witness :
  sentiment_counts [("sad", Some "negative"); ("happy", Some "positive")]
    "happy but sad" =
  sentiment_counts [("happy", Some "positive"); ("sad", Some "negative")]
    "happy but sad" /\
  analyze_sentiment [("sad", Some "negative"); ("happy", Some "positive")]
    "happy but sad" =
  analyze_sentiment [("happy", Some "positive"); ("sad", Some "negative")]
    "happy but sad".
Proof. apply analyze_sentiment_order_irrelevant. apply perm_swap. Defined.

Lemma str_in_empty_text (word : string) : str_in word "" = negb (str_truthy word).
Proof. by destruct word. Qed.

(** X4. For every lexicon file, the empty text scores exactly 1/2 and gets
    the neutral prompt: the loader keeps no empty word, and no other word
    occurs in the empty text. *)
Theorem empty_text_is_neutral (rows : list CsvRow) :
  analyze_sentiment (load_word_dict rows) "" = 1 # 2 /\
  generate_prompt (analyze_sentiment (load_word_dict rows) "") = neutral_prompt.
Proof.
  assert (H : analyze_sentiment (load_word_dict rows) "" = 1 # 2); [|by rewrite H].
  destruct (load_word_dict_keys rows) as [_ Hne].
  rewrite analyze_sentiment_unfold.
  assert (Hp : positive_hits (load_word_dict rows) "" = [] /\
               negative_hits (load_word_dict rows) "" = []).
  { apply no_hits_iff.
    induction (load_word_dict rows) as [|[k v] d IH]; cbn [existsb fst]; [done|].
    rewrite str_in_empty_text.
    destruct k as [|a s]; cbn [str_truthy negb orb].
    - exfalso. apply (Hne ""); [left | done].
    - apply IH. intros k Hk. apply Hne. by right. }
  destruct Hp as [-> ->]. done.
Qed.

(** X5. The prompt chosen for a text, in terms of the two counters: neutral
    without any hit; otherwise positive when 7 * neg <= 3 * pos, neutral
    when 2 * neg <= 3 * pos, and negative below that. *)
Theorem prompt_by_counts (word_dict : Dict) (text : string) :
  let pos_count := (sentiment_counts word_dict text).1 in
  let neg_count := (sentiment_counts word_dict text).2 in
  generate_prompt (analyze_sentiment word_dict text) =
  if pos_count + neg_count =? 0 then neutral_prompt
  else if 7 * neg_count <=? 3 * pos_count then positive_prompt
  else if 2 * neg_count <=? 3 * pos_count then neutral_prompt
  else negative_prompt.
Proof.
  cbv zeta. unfold analyze_sentiment.
  pose proof (counts_nonneg word_dict text) as (Hp & Hn & _).
  destruct (sentiment_counts word_dict text) as [p n]. cbn [fst snd] in *.
  destruct (Z.eqb_spec (p + n) 0) as [_|Hz]; [done|].
  unfold generate_prompt, Qle_bool. cbn [Qnum Qden].
  rewrite Z2Pos.id by lia.
  destruct (Z.leb_spec (7 * (p + n)) (p * 10)), (Z.leb_spec (7 * n) (3 * p));
    try lia; [done|].
  destruct (Z.leb_spec (4 * (p + n)) (p * 10)), (Z.leb_spec (2 * n) (3 * p));
    try lia; done.
Qed.

(** ** Integers and paths as text *)

Lemma digits_value_acc (d : Decimal.uint) (acc : positive) :
  digits_value (NilEmpty.string_of_uint d) true (Z.pos acc) =
  Some (Z.pos (Pos.of_uint_acc d acc)).
Proof.
  revert acc. induction d; intros acc; cbn [NilEmpty.string_of_uint Pos.of_uint_acc];
    [done|..];
    cbn [digits_value]; (rewrite <- IHd; f_equal; cbn; lia).
Qed.

Lemma digits_value_zero (d : Decimal.uint) :
  digits_value (NilEmpty.string_of_uint d) true 0 = Some (Z.of_N (Pos.of_uint d)).
Proof.
  induction d; cbn [NilEmpty.string_of_uint Pos.of_uint]; [done|exact IHd|..];
    cbn [digits_value]; apply digits_value_acc.
Qed.

(** A non-empty run of digits, read without a sign. *)
Lemma digits_value_unsigned (d : Decimal.uint) :
  d <> Decimal.Nil ->
  digits_value (NilEmpty.string_of_uint d) false 0 = Some (Z.of_N (Pos.of_uint d)).
Proof.
  intros Hd. destruct d; [done|..]; simpl;
    first [apply digits_value_zero | apply digits_value_acc].
Qed.

Lemma int_of_str_uint (d : Decimal.uint) :
  d <> Decimal.Nil ->
  int_of_str (NilEmpty.string_of_uint d) = Some (Z.of_N (Pos.of_uint d)).
Proof.
  intros Hd. rewrite <- (digits_value_unsigned d Hd).
  destruct d; [done|..]; reflexivity.
Qed.

Lemma nilzero_nonnil (d : Decimal.uint) :
  d <> Decimal.Nil -> NilZero.string_of_uint d = NilEmpty.string_of_uint d.
Proof. by destruct d. Qed.

(** X6. What [str] prints for an integer, [int] reads back: the post id
    formatted into a page or a path parses to the same id. *)
Theorem int_of_str_of_int (n : Z) : int_of_str (str_of_int n) = Some n.
Proof.
  unfold str_of_int. destruct n as [|p|p]; [done|..];
    cbn [Z.to_int NilZero.string_of_int];
    pose proof (Unsigned.to_uint_nonnil p) as Hnil;
    rewrite (nilzero_nonnil _ Hnil).
  - by rewrite (int_of_str_uint _ Hnil), Unsigned.of_to.
  - change (Z.opp <$> digits_value (NilEmpty.string_of_uint (Pos.to_uint p)) false 0
            = Some (Z.neg p)).
    by rewrite (digits_value_unsigned _ Hnil), Unsigned.of_to.
Qed.

Lemma string_of_uint_digits (d : Decimal.uint) :
  all_digit_or_minus (NilEmpty.string_of_uint d) = true.
Proof. induction d; simpl; done. Qed.

Lemma str_of_int_digits (n : Z) : all_digit_or_minus (str_of_int n) = true.
Proof.
  unfold str_of_int.
  destruct (Z.to_int n) as [d|d]; cbn [NilZero.string_of_int all_digit_or_minus].
  - destruct d; try done; rewrite nilzero_nonnil by done; apply string_of_uint_digits.
  - destruct d; try done; rewrite nilzero_nonnil by done;
      apply (string_of_uint_digits).
Qed.

(** A string of digits followed by an underscore splits in one way only. *)
Lemma split_at_underscore (s1 s2 r1 r2 : string) :
  all_digit_or_minus s1 = true -> all_digit_or_minus s2 = true ->
  s1 ++ String "_" r1 = s2 ++ String "_" r2 -> s1 = s2 /\ r1 = r2.
Proof.
  revert s2. induction s1 as [|a s1 IH]; intros [|b s2] H1 H2 H;
    rewrite ?append_nil, ?append_cons in H.
  - by injection H as ->.
  - injection H as <- _. discriminate.
  - injection H as -> _. discriminate.
  - injection H as -> H. simpl in H1, H2.
    apply andb_prop in H1 as [_ H1], H2 as [_ H2].
    destruct (IH s2 H1 H2 H) as [-> ->]. done.
Qed.

Lemma tmp_path_of_inj (uid uid' : Z) : tmp_path_of uid = tmp_path_of uid' -> uid = uid'.
Proof.
  unfold tmp_path_of. intros H. apply (append_inv_head "static/") in H.
  apply append_inv_tail in H. by apply str_of_int_inj.
Qed.

Lemma final_path_of_inj (uid uid' pid pid' : Z) :
  final_path_of uid pid = final_path_of uid' pid' -> uid = uid' /\ pid = pid'.
Proof.
  unfold final_path_of. intros H. apply (append_inv_head "static/") in H.
  apply split_at_underscore in H as [Hu Hp]; try apply str_of_int_digits.
  apply append_inv_tail in Hp. split; by apply str_of_int_inj.
Qed.

Lemma tmp_path_ne_any_final_path (uid uid' pid' : Z) :
  tmp_path_of uid <> final_path_of uid' pid'.
Proof.
  unfold tmp_path_of, final_path_of. intros H.
  apply (append_inv_head "static/") in H.
  change "_tmp.png" with (String "_" "tmp.png") in H.
  apply split_at_underscore in H as [_ Hp]; try apply str_of_int_digits.
  destruct (str_of_int_head pid') as (c & rest & Heq & Hc).
  rewrite Heq, append_cons in Hp. injection Hp as <- _. discriminate.
Qed.

(** X7. Image paths do not collide: two users have different draft paths,
    a permanent path determines both the user id and the post id, and no
    draft path is a permanent path of any user. *)
Theorem image_paths_do_not_collide (uid uid' pid pid' : Z) :
  (tmp_path_of uid = tmp_path_of uid' -> uid = uid') /\
  (final_path_of uid pid = final_path_of uid' pid' -> uid = uid' /\ pid = pid') /\
  tmp_path_of uid <> final_path_of uid' pid'.
Proof.
  split; [apply tmp_path_of_inj|].
  split; [apply final_path_of_inj | apply tmp_path_ne_any_final_path].
Qed.

Lemma image_paths_do_not_collide_witness :
  tmp_path_of 1 <> tmp_path_of 2 /\
  final_path_of 2 1 <> final_path_of 2 11 /\
  tmp_path_of 2 <> final_path_of 2 1.
Proof.
  split; [|split].
  - intros H. by apply (proj1 (image_paths_do_not_collide 1 2 0 0)) in H.
  - intros H. apply (proj1 (proj2 (image_paths_do_not_collide 2 2 1 11))) in H.
    by destruct H.
  - apply (image_paths_do_not_collide 2 2 1 1).
Defined.

(** ** Drafting an image *)

(** X8. [newimage] with the id of a stored post (of any owner) and an image
    coming back: the page shows the draft path, the post's content and the
    id as given; the only change to the world is that the requesting
    user's draft file now holds the new bytes. *)
Theorem newimage_drafts_for_existing_post (word_dict : Dict)
    (text_to_image : string -> option (list Byte.byte))
    (w : World) (req : Request) (current_user : User.t)
    (post_id_str : string) (pid : Z) (post : Post.t)
    (b : Byte.byte) (data : list Byte.byte) :
  method req ∈ ["GET"; "POST"] ->
  session_user_id req = Some (User.id current_user) ->
  users (db w) !! User.id current_user = Some current_user ->
  multidict_get (args req) "post_id" = Some post_id_str ->
  str_truthy post_id_str = true ->
  int_of_str post_id_str = Some pid ->
  posts (db w) !! pid = Some post ->
  generate_image text_to_image
    (generate_prompt (analyze_sentiment word_dict (Post.content post))) =
    Some (b :: data) ->
  let image_path := tmp_path_of (User.id current_user) in
  serve (newimage word_dict text_to_image) req w =
  (Render "newimage.html"
     [("image_path", VStr image_path);
      ("content", VStr (Post.content post));
      ("post_id", VStr post_id_str)],
   set_files (fun fs => <[image_path := b :: data]> fs) w).
Proof.
  intros Hm Hs Hu Ha Ht Hint Hpost Himg image_path.
  apply newimage_allowed in Hm.
  unfold newimage. rewrite (serve_route _ _ _ _ _ Hm Hs Hu).
  unfold serve, newimage_body, bind. rewrite Ha. cbn. rewrite Ht.
  unfold Post_query_get_str. rewrite Hint.
  unfold Post_query_get, gets. cbn. rewrite Hpost. cbn.
  rewrite Himg. cbn. done.
Qed.

Lemma newimage_drafts_for_existing_post_witness :
  serve (newimage lexicon image_ok) (bob_gets "1") world2 =
  (Render "newimage.html"
     [("image_path", VStr "static/2_tmp.png");
      ("content", VStr "a happy day");
      ("post_id", VStr "1")],
   set_files (fun fs => <["static/2_tmp.png" := png]> fs) world2).
Proof.
  apply (newimage_drafts_for_existing_post lexicon image_ok world2 (bob_gets "1")
           bob "1" 1 post1 Byte.x89 [Byte.x50; Byte.x4e; Byte.x47]).
  - apply (bool_decide_unpack _). exact I.
  - reflexivity.
  - vm_compute. reflexivity.
  - reflexivity.
  - reflexivity.
  - reflexivity.
  - vm_compute. reflexivity.
  - reflexivity.
Defined.

(** X9. [newimage] without a post id, with content in the form and an
    image coming back: a new post with that content is committed under the
    next key, the draft file of the user holds the bytes, and the page
    shows the draft path, the content and the new id. *)
Theorem newimage_drafts_for_new_post (word_dict : Dict)
    (text_to_image : string -> option (list Byte.byte))
    (w : World) (req : Request) (current_user : User.t)
    (content : string) (b : Byte.byte) (data : list Byte.byte) :
  method req ∈ ["GET"; "POST"] ->
  session_user_id req = Some (User.id current_user) ->
  users (db w) !! User.id current_user = Some current_user ->
  opt_truthy (multidict_get (args req) "post_id") = false ->
  multidict_get (form req) "content" = Some content ->
  generate_image text_to_image
    (generate_prompt (analyze_sentiment word_dict content)) = Some (b :: data) ->
  let image_path := tmp_path_of (User.id current_user) in
  let t := tables_with_new_post (db w) content (clock w) (User.id current_user) in
  serve (newimage word_dict text_to_image) req w =
  (Render "newimage.html"
     [("image_path", VStr image_path);
      ("content", VStr content);
      ("post_id", VInt (post_seq (db w)))],
   mkWorld t (t :: commit_log w) (<[image_path := b :: data]> (files w))
     (flashes w) (clock w)).
Proof.
  intros Hm Hs Hu Ha Hc Himg image_path t.
  apply newimage_allowed in Hm.
  unfold newimage. rewrite (serve_route _ _ _ _ _ Hm Hs Hu).
  unfold serve, newimage_body, bind. rewrite Ha, Hc. cbn.
  rewrite Himg. cbn. done.
Qed.

Lemma newimage_drafts_for_new_post_witness :
  serve (newimage lexicon image_ok) bob_drafts world1 =
  (Render "newimage.html"
     [("image_path", VStr "static/2_tmp.png");
      ("content", VStr "a sad day");
      ("post_id", VInt 2)],
   let t := tables_with_new_post (db world1) "a sad day" 1000 2 in
   mkWorld t (t :: commit_log world1) (<["static/2_tmp.png" := png]> (files world1))
     (flashes world1) 1000).
Proof.
  apply (newimage_drafts_for_new_post lexicon image_ok world1 bob_drafts bob
           "a sad day" Byte.x89 [Byte.x50; Byte.x4e; Byte.x47]).
  - apply (bool_decide_unpack _). exact I.
  - reflexivity.
  - vm_compute. reflexivity.
  - reflexivity.
  - reflexivity.
  - reflexivity.
Defined.

(** ** Plain entries *)

(** X10. [posts]: without the [diary_entry] field the request is a bad
    request; with action [generate] nothing is stored and the intermediate
    page carries the content; with any other action, or none, a post with
    that content, the current time and the current user is committed and
    the answer is the redirect to the index. *)
Theorem posts_view_effects (w : World) (req : Request) (current_user : User.t) :
  method req = "POST" ->
  session_user_id req = Some (User.id current_user) ->
  users (db w) !! User.id current_user = Some current_user ->
  (multidict_get (form req) "diary_entry" = None ->
   serve posts_view req w = (ErrorPage 400 "BadRequestKeyError", w)) /\
  (forall content,
     multidict_get (form req) "diary_entry" = Some content ->
     multidict_get (form req) "action" = Some "generate" ->
     serve posts_view req w =
     (Render "redirect_to_newimage.html" [("content", VStr content)], w)) /\
  (forall content,
     multidict_get (form req) "diary_entry" = Some content ->
     multidict_get (form req) "action" <> Some "generate" ->
     serve posts_view req w =
     (Redirect "index" [],
      let t := tables_with_new_post (db w) content (clock w) (User.id current_user) in
      mkWorld t (t :: commit_log w) (files w) (flashes w) (clock w))).
Proof.
  intros Hm Hs Hu.
  unfold posts_view. rewrite (serve_route _ _ _ _ _ (post_allowed _ Hm) Hs Hu).
  unfold serve, posts_body, form_item, bind.
  split; [|split].
  - intros ->. done.
  - intros content -> ->. cbn. done.
  - intros content -> Hact. cbn. rewrite (bool_decide_eq_false_2 _ Hact). done.
Qed.

Lemma posts_view_effects_witness :
  serve posts_view alice_posts world0 =
  (Redirect "index" [],
   let t := tables_with_new_post (db world0) "a happy day" 1000 1 in
   mkWorld t (t :: commit_log world0) (files world0) (flashes world0) 1000).
Proof.
  refine (proj2 (proj2 (posts_view_effects world0 alice_posts alice _ _ _))
            "a happy day" _ _).
  - reflexivity.
  - reflexivity.
  - vm_compute. reflexivity.
  - reflexivity.
  - discriminate.
Defined.

(** ** Requests that fail *)



Ltac enter_view :=
  unfold serve, route, login_required;
  case_bool_decide; [|done];
  destruct (session_user_id _) as [?uid|]; [|done];
  unfold bind, load_user, gets; cbn;
  destruct (users _ !! _) as [?u|]; [|done].

Lemma posts_view_error (req : Request) (w : World) :
  is_error_page (serve posts_view req w).1 = true -> (serve posts_view req w).2 = w.
Proof.
  unfold posts_view. enter_view.
  unfold posts_body, form_item, bind.
  destruct (multidict_get (form req) "diary_entry") as [c|]; [|done]. cbn.
  case_bool_decide; [done|]. cbn. done.
Qed.

Lemma confirm_image_error (req : Request) (w : World) :
  is_error_page (serve confirm_image req w).1 = true ->
  (serve confirm_image req w).2 = w.
Proof.
  unfold confirm_image. enter_view.
  unfold confirm_image_body, form_item, bind.
  destruct (multidict_get (form req) "action") as [a|]; [|done]. cbn.
  destruct (String.eqb a "redo").
  { destruct (multidict_get (form req) "content"); done. }
  destruct (multidict_get (form req) "post_id") as [s|]; [|done]. cbn.
  unfold py_int. destruct (int_of_str s) as [pid|]; [|done]. cbn.
  unfold Post_query_get_or_404, Post_query_get, bind, gets. cbn.
  destruct (posts (db w) !! pid) as [post|]; [|done]. cbn.
  unfold os_rename, bind, gets. cbn.
  destruct (files w !! _); [|done]. cbn. done.
Qed.

Lemma delete_view_error (pid : Z) (req : Request) (w : World) :
  is_error_page (serve (delete_view pid) req w).1 = true ->
  (serve (delete_view pid) req w).2 = w.
Proof.
  unfold delete_view. enter_view.
  unfold delete_body, Post_query_get_or_404, Post_query_get, bind, gets. cbn.
  destruct (posts (db w) !! pid) as [post|]; [|done]. cbn.
  destruct (Post.user_id post =? User.id u); cbn; done.
Qed.

Lemma user_delete_error (req : Request) (w : World) :
  is_error_page (serve user_delete req w).1 = true ->
  (serve user_delete req w).2 = w.
Proof.
  unfold user_delete. enter_view.
  unfold user_delete_body, bind. cbn.
  unfold session_commit. cbn. unfold user_has_posts. cbn.
  rewrite no_posts_left. cbn. done.
Qed.

(** X11. [posts], [confirm_image], [delete] and [user_delete] leave no
    half-done change behind: whenever one of them answers with an error
    page, the world is exactly as it was, every step of theirs that can
    fail coming before the first write.  For [confirm_image] the post id
    is taken to be of plain characters.  ([newimage] and [newuser] commit
    before they are done and are not covered.) *)
Theorem error_pages_change_nothing (post_id : Z) (req : Request) (w : World) :
  (is_error_page (serve posts_view req w).1 = true ->
   (serve posts_view req w).2 = w) /\
  (plain_post_id req ->
   is_error_page (serve confirm_image req w).1 = true ->
   (serve confirm_image req w).2 = w) /\
  (is_error_page (serve (delete_view post_id) req w).1 = true ->
   (serve (delete_view post_id) req w).2 = w) /\
  (is_error_page (serve user_delete req w).1 = true ->
   (serve user_delete req w).2 = w).
Proof.
  split; [apply posts_view_error|].
  split; [intros _; apply confirm_image_error|].
  split; [apply delete_view_error | apply user_delete_error].
Qed.

Lemma error_pages_change_nothing_witness :
  (serve confirm_image (bob_confirms "99") world2).2 = world2 /\
  (serve (delete_view 99) alice_request world2).2 = world2.
Proof.
  split.
  - refine (proj1 (proj2 (error_pages_change_nothing 0 (bob_confirms "99") world2))
              _ _).
    + intros s Hs. injection Hs as <-. reflexivity.
    + vm_compute. reflexivity.
  - refine (proj1 (proj2 (proj2 (error_pages_change_nothing 99 alice_request
              world2))) _).
    vm_compute. reflexivity.
Defined.

(** ** Requests without a valid session *)

Lemma serve_to_refused {R : Type} (error_page : Z -> string -> R)
    (methods : list string) (view : User.t -> Request -> M R)
    (req : Request) (w : World) :
  method req ∈ allowed_methods methods ->
  anonymous req w ->
  serve_to error_page (route_to methods (login_required_to view)) req w =
  (error_page 401 "Unauthorized", w).
Proof.
  intros Hm Ha. unfold serve_to, route_to, login_required_to, anonymous in *.
  rewrite (bool_decide_eq_true_2 _ Hm).
  destruct (session_user_id req) as [uid|]; [|done].
  unfold bind, load_user, gets. cbn. by rewrite Ha.
Qed.

Lemma serve_to_authenticated {R : Type} (error_page : Z -> string -> R)
    (methods : list string) (view : User.t -> Request -> M R)
    (req : Request) (w : World) (u : User.t) :
  method req ∈ allowed_methods methods ->
  session_user_id req = Some (User.id u) ->
  users (db w) !! User.id u = Some u ->
  serve_to error_page (route_to methods (login_required_to view)) req w =
  serve_to error_page (view u) req w.
Proof.
  intros Hm Hs Hu. unfold serve_to, route_to, login_required_to.
  rewrite (bool_decide_eq_true_2 _ Hm), Hs.
  unfold bind, load_user, gets. cbn. by rewrite Hu.
Qed.

Lemma serve_refused (methods : list string)
    (view : User.t -> Request -> M Response) (req : Request) (w : World) :
  method req ∈ allowed_methods methods ->
  anonymous req w ->
  serve (route methods (login_required view)) req w =
  (ErrorPage 401 "Unauthorized", w).
Proof. apply (serve_to_refused ErrorPage). Qed.

Lemma index_anonymous (req : Request) (w : World) :
  method req ∈ allowed_methods ["GET"] ->
  anonymous req w ->
  serve_list index req w = (ListRedirect "login", w).
Proof.
  intros Hm Ha. unfold serve_list, serve_to, index, route_to, anonymous in *.
  rewrite (bool_decide_eq_true_2 _ Hm).
  unfold index_body, current_user_of, bind.
  destruct (session_user_id req) as [uid|]; [|done].
  unfold load_user, gets. cbn. by rewrite Ha.
Qed.

Lemma get_or_head_allowed (m : string) :
  m = "GET" \/ m = "HEAD" -> m ∈ allowed_methods ["GET"].
Proof. intros [->| ->]; apply (bool_decide_unpack _); exact I. Qed.

(** X13. Without a session cookie, or with the cookie of an account that
    is not stored, every protected view answers 401 and changes nothing,
    and [index] redirects to the login page. *)
Theorem requests_without_valid_session_are_refused (word_dict : Dict)
    (text_to_image : string -> option (list Byte.byte))
    (post_id : Z) (req : Request) (w : World) :
  anonymous req w ->
  (method req = "POST" ->
   serve posts_view req w = (ErrorPage 401 "Unauthorized", w) /\
   serve (newimage word_dict text_to_image) req w = (ErrorPage 401 "Unauthorized", w) /\
   serve confirm_image req w = (ErrorPage 401 "Unauthorized", w) /\
   serve user_delete req w = (ErrorPage 401 "Unauthorized", w)) /\
  (method req = "GET" ->
   serve (newimage word_dict text_to_image) req w = (ErrorPage 401 "Unauthorized", w) /\
   serve (delete_view post_id) req w = (ErrorPage 401 "Unauthorized", w) /\
   serve user_delete_confirm req w = (ErrorPage 401 "Unauthorized", w) /\
   serve_list edit req w = (ListError 401 "Unauthorized", w) /\
   serve_session logout req w = ((ErrorPage 401 "Unauthorized", KeepSession), w) /\
   serve_list index req w = (ListRedirect "login", w)).
Proof.
  intros Ha. split; intros Hm.
  - repeat split; apply serve_refused; try done;
      rewrite Hm; apply (bool_decide_unpack _); exact I.
  - assert (Hg : method req ∈ allowed_methods ["GET"]) by by apply get_allowed.
    split; [apply serve_refused; [|done]; rewrite Hm; apply (bool_decide_unpack _); exact I|].
    split; [by apply serve_refused|].
    split; [by apply serve_refused|].
    split; [by apply (serve_to_refused ListError)|].
    split; [by apply (serve_to_refused (fun c r => (ErrorPage c r, KeepSession)))|].
    by apply index_anonymous.
Qed.

Lemma requests_without_valid_session_are_refused_witness :
  serve posts_view anonymous_post world2 = (ErrorPage 401 "Unauthorized", world2) /\
  serve_list index anonymous_get world2 = (ListRedirect "login", world2).
Proof.
  split.
  - refine (proj1 (proj1 (requests_without_valid_session_are_refused lexicon
              image_ok 0 anonymous_post world2 _) _)).
    + exact I.
    + reflexivity.
  - refine (proj2 (proj2 (proj2 (proj2 (proj2 (proj2
              (requests_without_valid_session_are_refused lexicon image_ok 0
                 anonymous_get world2 _) _)))))).
    + exact I.
    + reflexivity.
Defined.

(** ** Views that only read *)

Lemma serve_to_login_required_reads {R : Type} (error_page : Z -> string -> R)
    (methods : list string) (view : User.t -> Request -> M R) :
  (forall u req st, (view u req st).2 = st) ->
  forall req w,
    (serve_to error_page (route_to methods (login_required_to view)) req w).2 = w.
Proof.
  intros Hview req w. unfold serve_to, route_to, login_required_to.
  case_bool_decide; [|done].
  destruct (session_user_id req) as [uid|]; [|done].
  unfold bind, load_user, gets. cbn.
  destruct (users (db w) !! uid) as [u|]; [|done].
  specialize (Hview u req (mkSt w (fresh_session w))).
  destruct (view u req _) as [r st]. cbn in *. by subst.
Qed.

Lemma index_reads (req : Request) (w : World) : (serve_list index req w).2 = w.
Proof.
  unfold serve_list, serve_to, index, route_to.
  case_bool_decide; [|done].
  unfold index_body, current_user_of, bind.
  destruct (session_user_id req) as [uid|]; [|done].
  unfold load_user, gets. cbn.
  destruct (users (db w) !! uid) as [u|]; done.
Qed.

Lemma edit_reads (req : Request) (w : World) : (serve_list edit req w).2 = w.
Proof. apply serve_to_login_required_reads. done. Qed.

Lemma login_reads (check_password_hash : string -> option string -> Res bool)
    (req : Request) (w : World) :
  (serve_session (login check_password_hash) req w).2 = w.
Proof.
  unfold serve_session, serve_to, login, route_to.
  case_bool_decide; [|done].
  unfold login_body, bind.
  destruct (String.eqb (method req) "POST"); [|done].
  unfold User_query_by_username_first, gets. cbn.
  destruct (multidict_get (form req) "username") as [name|]; [|done].
  destruct (head _) as [user|]; [|done]. cbn.
  unfold call_check_password_hash.
  destruct (check_password_hash _ _) as [[|]|e]; done.
Qed.

Lemma logout_reads (req : Request) (w : World) : (serve_session logout req w).2 = w.
Proof. apply serve_to_login_required_reads. done. Qed.

Lemma user_delete_confirm_reads (req : Request) (w : World) :
  (serve user_delete_confirm req w).2 = w.
Proof. apply (serve_to_login_required_reads ErrorPage). done. Qed.

(** X14. [index], [edit], [login], [logout] and [user_delete_confirm] never
    change the world, whatever the request. *)
Theorem reading_views_change_nothing
    (check_password_hash : string -> option string -> Res bool)
    (req : Request) (w : World) :
  (serve_list index req w).2 = w /\
  (serve_list edit req w).2 = w /\
  (serve_session (login check_password_hash) req w).2 = w /\
  (serve_session logout req w).2 = w /\
  (serve user_delete_confirm req w).2 = w.
Proof.
  split; [apply index_reads|]. split; [apply edit_reads|].
  split; [apply login_reads|]. split; [apply logout_reads|].
  apply user_delete_confirm_reads.
Qed.

(** ** Listing *)

#[global] Instance newer_first_total : Total newer_first.
Proof. intros p q. unfold newer_first. lia. Qed.

#[global] Instance newer_first_trans : Transitive newer_first.
Proof. intros p q r. unfold newer_first. lia. Qed.

Lemma elem_of_listed_posts (uid : Z) (t : Tables) (p : Post.t) :
  p ∈ listed_posts uid t <->
  exists k, posts t !! k = Some p /\ Post.user_id p = uid.
Proof.
  unfold listed_posts. rewrite merge_sort_Permutation, list_elem_of_fmap. split.
  - intros [[k q] [-> Hkq]]. apply elem_of_map_to_list in Hkq.
    apply map_lookup_filter_Some in Hkq as [Hk Hu]. by exists k.
  - intros [k [Hk Hu]]. exists (k, p). split; [done|].
    apply elem_of_map_to_list. by apply map_lookup_filter_Some.
Qed.

Lemma listed_posts_ids_NoDup (uid : Z) (t : Tables) :
  tables_ok t -> NoDup (map Post.id (listed_posts uid t)).
Proof.
  intros [Hposts _]. unfold listed_posts. rewrite merge_sort_Permutation.
  set (m := filter _ (posts t)).
  assert (Heq : map Post.id (map snd (map_to_list m)) = map fst (map_to_list m)).
  { rewrite map_map. apply map_ext_in. intros [k p] Hkp. cbn.
    apply list_elem_of_In, elem_of_map_to_list in Hkp.
    apply map_lookup_filter_Some in Hkp as [Hk _]. by apply Hposts in Hk as [-> _]. }
  rewrite Heq. apply NoDup_fst_map_to_list.
Qed.

Lemma index_result (w : World) (req : Request) (current_user : User.t) :
  method req ∈ allowed_methods ["GET"] ->
  session_user_id req = Some (User.id current_user) ->
  users (db w) !! User.id current_user = Some current_user ->
  serve_list index req w =
  (IndexPage (map post_view (listed_posts (User.id current_user) (db w))), w).
Proof.
  intros Hm Hs Hu. unfold serve_list, serve_to, index, route_to.
  rewrite (bool_decide_eq_true_2 _ Hm).
  unfold index_body, current_user_of, bind. rewrite Hs.
  unfold load_user, gets. cbn. by rewrite Hu.
Qed.

Lemma edit_result (w : World) (req : Request) (current_user : User.t) :
  method req ∈ allowed_methods ["GET"] ->
  session_user_id req = Some (User.id current_user) ->
  users (db w) !! User.id current_user = Some current_user ->
  serve_list edit req w =
  (EditPage (listed_posts (User.id current_user) (db w)), w).
Proof.
  intros Hm Hs Hu. unfold serve_list, edit.
  by rewrite (serve_to_authenticated _ _ _ _ _ _ Hm Hs Hu).
Qed.

(** X15. For a logged-in user, [index] and [edit] show the same rows: the
    user's own posts, all of them, each once, newest first; [index] shows
    each with its content and image path and with its creation instant
    nine hours ahead of UTC; the world is not changed. *)
Theorem lists_show_own_posts_newest_first (w : World) (req : Request)
    (current_user : User.t) :
  tables_ok (db w) ->
  method req = "GET" ->
  session_user_id req = Some (User.id current_user) ->
  users (db w) !! User.id current_user = Some current_user ->
  exists listed : list Post.t,
    serve_list index req w = (IndexPage (map post_view listed), w) /\
    serve_list edit req w = (EditPage listed, w) /\
    (forall p, p ∈ listed <->
       exists k, posts (db w) !! k = Some p /\ Post.user_id p = User.id current_user) /\
    NoDup (map Post.id listed) /\
    StronglySorted (fun p q => Post.date_created q <= Post.date_created p) listed /\
    (forall p, p ∈ listed ->
       view_content (post_view p) = Post.content p /\
       instant (view_date (post_view p)) = Post.date_created p /\
       utcoffset (view_date (post_view p)) = 9 * 3600 /\
       view_image_path (post_view p) = Post.image_path p).
Proof.
  intros Hok Hm Hs Hu. apply get_allowed in Hm.
  exists (listed_posts (User.id current_user) (db w)).
  split; [by apply index_result|].
  split; [by apply edit_result|].
  split; [apply elem_of_listed_posts|].
  split; [by apply listed_posts_ids_NoDup|].
  split; [apply (StronglySorted_merge_sort newer_first)|].
  done.
Qed.

Lemma lists_show_own_posts_newest_first_witness :
  exists listed : list Post.t,
    serve_list index alice_request world2 = (IndexPage (map post_view listed), world2) /\
    serve_list edit alice_request world2 = (EditPage listed, world2) /\
    (forall p, p ∈ listed <->
       exists k, posts (db world2) !! k = Some p /\ Post.user_id p = 1) /\
    NoDup (map Post.id listed) /\
    StronglySorted (fun p q => Post.date_created q <= Post.date_created p) listed /\
    (forall p, p ∈ listed ->
       view_content (post_view p) = Post.content p /\
       instant (view_date (post_view p)) = Post.date_created p /\
       utcoffset (view_date (post_view p)) = 9 * 3600 /\
       view_image_path (post_view p) = Post.image_path p).
Proof.
  apply (lists_show_own_posts_newest_first world2 alice_request alice).
  - tables_ok_by_evaluation.
  - reflexivity.
  - reflexivity.
  - vm_compute. reflexivity.
Defined.

(** X16. An entry posted without image shows up in the author's next
    index page with the same content, the posting time and no image, next
    to everything that was listed before. *)
Theorem posted_entry_is_listed (w : World) (req req' : Request)
    (current_user : User.t) (content : string) :
  tables_ok (db w) ->
  method req = "POST" ->
  session_user_id req = Some (User.id current_user) ->
  users (db w) !! User.id current_user = Some current_user ->
  multidict_get (form req) "diary_entry" = Some content ->
  multidict_get (form req) "action" <> Some "generate" ->
  method req' = "GET" ->
  session_user_id req' = Some (User.id current_user) ->
  let w' := (serve posts_view req w).2 in
  exists listed : list PostView,
    serve_list index req' w' = (IndexPage listed, w') /\
    mkPostView content (to_jst (clock w)) None ∈ listed /\
    (forall p, p ∈ listed_posts (User.id current_user) (db w) -> post_view p ∈ listed).
Proof.
  intros [Hposts _] Hm Hs Hu Hc Hact Hm' Hs' w'.
  assert (Hw' : w' =
    let t := tables_with_new_post (db w) content (clock w) (User.id current_user) in
    mkWorld t (t :: commit_log w) (files w) (flashes w) (clock w)).
  { subst w'. unfold posts_view.
    rewrite (serve_route _ _ _ _ _ (post_allowed _ Hm) Hs Hu).
    unfold serve, posts_body, form_item, bind. rewrite Hc. cbn.
    by rewrite (bool_decide_eq_false_2 _ Hact). }
  assert (Hfree : posts (db w) !! post_seq (db w) = None).
  { destruct (posts (db w) !! post_seq (db w)) as [p|] eqn:Hp; [|done].
    apply Hposts in Hp as [_ Hlt]. lia. }
  exists (map post_view (listed_posts (User.id current_user) (db w'))).
  split.
  { apply index_result; [by apply get_allowed | done |]. by rewrite Hw'. }
  split.
  - apply (list_elem_of_fmap_2 post_view _
             (Post.mk (post_seq (db w)) content (clock w) (User.id current_user) None)).
    apply elem_of_listed_posts. exists (post_seq (db w)).
    rewrite Hw'. cbn. by rewrite lookup_insert_eq.
  - intros p Hp. apply list_elem_of_fmap_2.
    apply elem_of_listed_posts in Hp as [k [Hk Hown]].
    apply elem_of_listed_posts. exists k. split; [|done].
    rewrite Hw'. cbn. rewrite lookup_insert_ne; [done|]. congruence.
Qed.

Lemma posted_entry_is_listed_witness :
  exists listed : list PostView,
    serve_list index alice_request world1 = (IndexPage listed, world1) /\
    mkPostView "a happy day" (to_jst 1000) None ∈ listed /\
    (forall p, p ∈ listed_posts 1 (db world0) -> post_view p ∈ listed).
Proof.
  apply (posted_entry_is_listed world0 alice_posts alice_request alice "a happy day").
  - tables_ok_by_evaluation.
  - reflexivity.
  - reflexivity.
  - vm_compute. reflexivity.
  - reflexivity.
  - discriminate.
  - reflexivity.
  - reflexivity.
Defined.

(** ** Accounts *)

Lemma name_is_free_filter (name : string) (t : Tables) :
  name_is_free name t <->
  filter (fun kv : Z * User.t => User.username kv.2 = name) (users t) = ∅.
Proof.
  rewrite map_empty. split.
  - intros Hfree k. apply map_lookup_filter_None. right. intros u Hu. cbn.
    by apply (Hfree k).
  - intros Hnone k u Hu Hname. specialize (Hnone k).
    apply map_lookup_filter_None in Hnone as [Hnone|Hnone]; [congruence|].
    by apply (Hnone u).
Qed.

Lemma user_named_None (name : string) (t : Tables) :
  user_named name t = None <-> name_is_free name t.
Proof.
  unfold user_named. rewrite name_is_free_filter.
  rewrite <- map_to_list_empty_iff.
  destruct (map_to_list _) as [|kv l]; cbn; split; done.
Qed.

Lemma user_named_Some (name : string) (t : Tables) (u : User.t) :
  user_named name t = Some u ->
  exists k, users t !! k = Some u /\ User.username u = name.
Proof.
  unfold user_named. intros H.
  destruct (map_to_list _) as [|[k v] l] eqn:Hl; [done|].
  cbn in H. injection H as ->.
  assert (Hin : (k, u) ∈ map_to_list
    (filter (fun kv : Z * User.t => User.username kv.2 = name) (users t))).
  { rewrite Hl. left. }
  apply elem_of_map_to_list, map_lookup_filter_Some in Hin as [Hk Hn]. by exists k.
Qed.

Lemma user_named_unique (name : string) (t : Tables) (k : Z) (u : User.t) :
  usernames_unique t ->
  users t !! k = Some u -> User.username u = name ->
  user_named name t = Some u.
Proof.
  intros Huniq Hk Hname.
  destruct (user_named name t) as [u'|] eqn:Hu'.
  - apply user_named_Some in Hu' as [k' [Hk' Hname']].
    assert (k' = k) as -> by (apply (Huniq k' u' Hk' k u Hk); congruence).
    congruence.
  - apply user_named_None in Hu'. by destruct (Hu' k u Hk).
Qed.

Lemma serve_newuser (generate_password_hash : string -> string)
    (req : Request) (w : World) :
  method req ∈ ["GET"; "POST"] ->
  serve (newuser generate_password_hash) req w =
  serve (newuser_body generate_password_hash) req w.
Proof.
  intros Hm. apply newimage_allowed in Hm. unfold newuser, serve, route.
  by rewrite (bool_decide_eq_true_2 _ Hm).
Qed.

Lemma get_in_get_post (m : string) : m = "GET" -> m ∈ ["GET"; "POST"].
Proof. intros ->. apply (bool_decide_unpack _). exact I. Qed.

Lemma post_in_get_post (m : string) : m = "POST" -> m ∈ ["GET"; "POST"].
Proof. intros ->. apply (bool_decide_unpack _). exact I. Qed.

(** X17. [newuser] stores nothing when it rejects: a GET shows the empty
    form, and a POST without username, without password, or with a
    username already stored shows the form with the matching message.  The
    world is unchanged in each case. *)
Theorem newuser_rejections (generate_password_hash : string -> string)
    (req : Request) (w : World) :
  (method req = "GET" ->
   serve (newuser generate_password_hash) req w =
   (Render "newuser.html" [("error", VNone)], w)) /\
  (method req = "POST" ->
   let username := multidict_get (form req) "username" in
   let password := multidict_get (form req) "password" in
   (opt_truthy username = false ->
    serve (newuser generate_password_hash) req w =
    (Render "newuser.html" [("error", VStr "ユーザー名を入力してください")], w)) /\
   (opt_truthy username = true -> opt_truthy password = false ->
    serve (newuser generate_password_hash) req w =
    (Render "newuser.html" [("error", VStr "パスワードを入力してください")], w)) /\
   (forall name, username = Some name ->
    opt_truthy username = true -> opt_truthy password = true ->
    ~ name_is_free name (db w) ->
    serve (newuser generate_password_hash) req w =
    (Render "newuser.html" [("error", VStr "すでに登録されているユーザー名です")], w))).
Proof.
  split.
  - intros Hm. rewrite serve_newuser by by apply get_in_get_post.
    unfold serve, newuser_body, bind. by rewrite Hm.
  - intros Hm. rewrite serve_newuser by by apply post_in_get_post.
    unfold serve, newuser_body, bind. rewrite Hm. cbn.
    split; [by intros ->|]. split; [by intros -> ->|].
    intros name -> Hu Hp Hfree. rewrite Hu, Hp. cbn.
    rewrite bool_decide_eq_true_2; [done|].
    destruct (head _) as [u|] eqn:Hh; [done|].
    by apply (user_named_None name (db w)) in Hh.
Qed.

Lemma newuser_rejections_witness :
  serve (newuser toy_hash) (credentials "" "hunter2") empty_world =
    (Render "newuser.html" [("error", VStr "ユーザー名を入力してください")], empty_world) /\
  serve (newuser toy_hash) (credentials "alice" "other") alice_registered =
    (Render "newuser.html" [("error", VStr "すでに登録されているユーザー名です")],
     alice_registered).
Proof.
  split.
  - refine (proj1 (proj2 (newuser_rejections toy_hash (credentials "" "hunter2")
                     empty_world) _) _); reflexivity.
  - refine (proj2 (proj2 (proj2 (newuser_rejections toy_hash
              (credentials "alice" "other") alice_registered) _)) "alice" _ _ _ _).
    + reflexivity.
    + reflexivity.
    + reflexivity.
    + reflexivity.
    + intros Hfree. apply (Hfree 1 (User.mk 1 "alice" (toy_hash "hunter2")));
        [vm_compute; reflexivity | reflexivity].
Defined.

Lemma newuser_success (generate_password_hash : string -> string)
    (req : Request) (w : World) (name pass : string) :
  method req = "POST" ->
  multidict_get (form req) "username" = Some name -> str_truthy name = true ->
  multidict_get (form req) "password" = Some pass -> str_truthy pass = true ->
  name_is_free name (db w) ->
  utf8_length name <= 30 ->
  utf8_length (generate_password_hash pass) <= 128 ->
  serve (newuser generate_password_hash) req w =
  (Render "login.html" [],
   let t := tables_with_new_user (db w) name (generate_password_hash pass) in
   mkWorld t (t :: commit_log w) (files w) (flashes w) (clock w)).
Proof.
  intros Hm Hn Hnt Hp Hpt Hfree Hlen Hlen'.
  rewrite serve_newuser by by apply post_in_get_post.
  unfold serve, newuser_body, bind. rewrite Hm, Hn, Hp. cbn. rewrite Hnt, Hpt. cbn.
  pose proof Hfree as Hfree'.
  apply user_named_None in Hfree. unfold user_named in Hfree. rewrite Hfree. cbn.
  unfold session_add_user. cbn.
  assert (Hl : (30 <? utf8_length name)
               || (128 <? utf8_length (generate_password_hash pass)) = false).
  { apply orb_false_iff. split; apply Z.ltb_ge; lia. }
  rewrite Hl.
  apply name_is_free_filter in Hfree'. rewrite Hfree'. cbn. done.
Qed.

(** X18. A POST to [newuser] with a non-empty username of at most 30
    characters that no stored user carries, and a non-empty password whose
    hash fits 128 characters, stores exactly one new user, under the next
    key, with the hash as password; posts, other users and files are
    unchanged, and the answer is the login page. *)
Theorem newuser_registers (generate_password_hash : string -> string)
    (req : Request) (w : World) (name pass : string) :
  method req = "POST" ->
  multidict_get (form req) "username" = Some name -> str_truthy name = true ->
  multidict_get (form req) "password" = Some pass -> str_truthy pass = true ->
  name_is_free name (db w) ->
  utf8_length name <= 30 ->
  utf8_length (generate_password_hash pass) <= 128 ->
  let '(resp, w') := serve (newuser generate_password_hash) req w in
  resp = Render "login.html" [] /\
  users (db w') !! user_seq (db w) =
    Some (User.mk (user_seq (db w)) name (generate_password_hash pass)) /\
  (forall k, k <> user_seq (db w) -> users (db w') !! k = users (db w) !! k) /\
  posts (db w') = posts (db w) /\
  user_seq (db w') = user_seq (db w) + 1 /\
  commit_log w' = db w' :: commit_log w /\
  files w' = files w.
Proof.
  intros Hm Hn Hnt Hp Hpt Hfree Hlen Hlen'.
  rewrite (newuser_success _ req w name pass) by done. cbn.
  split; [done|]. split; [by rewrite lookup_insert_eq|].
  split; [intros k Hk; by rewrite lookup_insert_ne|]. done.
Qed.

Lemma newuser_registers_witness :
  let '(resp, w') :=
    serve (newuser toy_hash) (credentials "alice" "hunter2") empty_world in
  resp = Render "login.html" [] /\
  users (db w') !! 1 = Some (User.mk 1 "alice" (toy_hash "hunter2")) /\
  (forall k, k <> 1 -> users (db w') !! k = users (db empty_world) !! k) /\
  posts (db w') = posts (db empty_world) /\
  user_seq (db w') = 1 + 1 /\
  commit_log w' = db w' :: commit_log empty_world /\
  files w' = files empty_world.
Proof.
  apply (newuser_registers toy_hash (credentials "alice" "hunter2") empty_world
           "alice" "hunter2").
  - reflexivity.
  - reflexivity.
  - reflexivity.
  - reflexivity.
  - reflexivity.
  - apply (bool_decide_unpack _). vm_compute. exact I.
  - vm_compute. discriminate.
  - vm_compute. discriminate.
Defined.

Lemma serve_login (check_password_hash : string -> option string -> Res bool)
    (req : Request) (w : World) :
  method req = "POST" ->
  serve_session (login check_password_hash) req w =
  match user_named (default "" (multidict_get (form req) "username")) (db w),
        multidict_get (form req) "username" with
  | Some user, Some _ =>
      match check_password_hash (User.password user)
              (multidict_get (form req) "password") with
      | Ok true => ((Redirect "index" [], LogIn (User.id user)), w)
      | Ok false =>
          ((Render "login.html" [("error", VStr login_failed_message)],
            KeepSession), w)
      | Err (HTTPException code name) => ((ErrorPage code name, KeepSession), w)
      | Err (Raised name) => ((ErrorPage 500 name, KeepSession), w)
      end
  | _, _ =>
      ((Render "login.html" [("error", VStr login_failed_message)], KeepSession), w)
  end.
Proof.
  intros Hm. unfold serve_session, serve_to, login, route_to.
  rewrite bool_decide_eq_true_2 by by apply newimage_allowed, post_in_get_post.
  unfold login_body, bind. rewrite Hm. cbn.
  unfold User_query_by_username_first, gets, user_named. cbn.
  destruct (multidict_get (form req) "username") as [name|]; cbn.
  - destruct (head _) as [user|]; [|done]. cbn.
    unfold call_check_password_hash.
    destruct (check_password_hash _ _) as [[|]|[code n|n]]; done.
  - by destruct (head _).
Qed.

(** X19. With unique usernames, a POST to [login] carrying the username of
    a stored user and a password that the check accepts against the stored
    hash redirects to the index and logs that user in; nothing stored
    changes. *)
Theorem login_accepts_registered_credentials
    (check_password_hash : string -> option string -> Res bool)
    (req : Request) (w : World) (k : Z) (user : User.t) (pass : string) :
  usernames_unique (db w) ->
  method req = "POST" ->
  users (db w) !! k = Some user ->
  multidict_get (form req) "username" = Some (User.username user) ->
  multidict_get (form req) "password" = Some pass ->
  check_password_hash (User.password user) (Some pass) = Ok true ->
  serve_session (login check_password_hash) req w =
  ((Redirect "index" [], LogIn (User.id user)), w).
Proof.
  intros Huniq Hm Hk Hn Hp Hcheck.
  rewrite serve_login by done. rewrite Hn, Hp. cbn.
  rewrite (user_named_unique _ _ k user Huniq Hk eq_refl). by rewrite Hcheck.
Qed.

Lemma login_accepts_registered_credentials_witness :
  serve_session (login toy_check) (credentials "alice" "hunter2") alice_registered =
  ((Redirect "index" [], LogIn 1), alice_registered).
Proof.
  apply (login_accepts_registered_credentials toy_check
           (credentials "alice" "hunter2") alice_registered 1
           (User.mk 1 "alice" (toy_hash "hunter2")) "hunter2").
  - apply (bool_decide_unpack _). vm_compute. exact I.
  - reflexivity.
  - vm_compute. reflexivity.
  - reflexivity.
  - reflexivity.
  - reflexivity.
Defined.

(** X20. [login] answers a POST without username, with a username nobody
    carries, and with a password the check refuses in exactly the same
    way: the login page with one and the same message, no session, nothing
    changed. *)
Theorem login_rejections_look_alike
    (check_password_hash : string -> option string -> Res bool)
    (req : Request) (w : World) :
  method req = "POST" ->
  (multidict_get (form req) "username" = None \/
   (exists name, multidict_get (form req) "username" = Some name /\
                 name_is_free name (db w)) \/
   (exists name user,
      multidict_get (form req) "username" = Some name /\
      user_named name (db w) = Some user /\
      check_password_hash (User.password user)
        (multidict_get (form req) "password") = Ok false)) ->
  serve_session (login check_password_hash) req w =
  ((Render "login.html" [("error", VStr login_failed_message)], KeepSession), w).
Proof.
  intros Hm H. rewrite serve_login by done.
  destruct H as [->|[(name & -> & Hfree)|(name & user & -> & Hu & Hcheck)]]; cbn.
  - by destruct (user_named "" (db w)).
  - apply user_named_None in Hfree. by rewrite Hfree.
  - by rewrite Hu, Hcheck.
Qed.

Lemma login_rejections_look_alike_witness :
  serve_session (login toy_check) (credentials "carol" "hunter2") alice_registered =
    ((Render "login.html" [("error", VStr login_failed_message)], KeepSession),
     alice_registered) /\
  serve_session (login toy_check) (credentials "alice" "wrong") alice_registered =
    ((Render "login.html" [("error", VStr login_failed_message)], KeepSession),
     alice_registered).
Proof.
  split.
  - apply (login_rejections_look_alike toy_check (credentials "carol" "hunter2")
             alice_registered); [reflexivity|].
    right. left. exists "carol". split; [reflexivity|].
    apply (bool_decide_unpack _). vm_compute. exact I.
  - apply (login_rejections_look_alike toy_check (credentials "alice" "wrong")
             alice_registered); [reflexivity|].
    right. right. exists "alice", (User.mk 1 "alice" (toy_hash "hunter2")).
    split; [reflexivity|]. split; vm_compute; reflexivity.
Defined.

(** X21. Registering and then logging in with the same username and
    password succeeds, provided the check accepts a password against its
    own hash: the login redirects to the index and logs in the user under
    the key the registration gave. *)
Theorem register_then_login (generate_password_hash : string -> string)
    (check_password_hash : string -> option string -> Res bool)
    (req req' : Request) (w : World) (name pass : string) :
  method req = "POST" ->
  multidict_get (form req) "username" = Some name -> str_truthy name = true ->
  multidict_get (form req) "password" = Some pass -> str_truthy pass = true ->
  name_is_free name (db w) ->
  utf8_length name <= 30 ->
  utf8_length (generate_password_hash pass) <= 128 ->
  check_password_hash (generate_password_hash pass) (Some pass) = Ok true ->
  method req' = "POST" ->
  multidict_get (form req') "username" = Some name ->
  multidict_get (form req') "password" = Some pass ->
  let w' := (serve (newuser generate_password_hash) req w).2 in
  serve_session (login check_password_hash) req' w' =
  ((Redirect "index" [], LogIn (user_seq (db w))), w').
Proof.
  intros Hm Hn Hnt Hp Hpt Hfree Hlen Hlen' Hcheck Hm' Hn' Hp' w'.
  assert (Hdb : db w' =
            tables_with_new_user (db w) name (generate_password_hash pass)).
  { subst w'. by rewrite (newuser_success _ req w name pass). }
  rewrite serve_login by done. rewrite Hn', Hp', Hdb. cbn [default]. unfold id.
  set (new := User.mk (user_seq (db w)) name (generate_password_hash pass)).
  assert (Hnamed : user_named name
     (tables_with_new_user (db w) name (generate_password_hash pass)) = Some new).
  { destruct (user_named name _) as [u|] eqn:Hu.
    - apply user_named_Some in Hu as [k [Hk Hname]]. cbn in Hk.
      destruct (decide (k = user_seq (db w))) as [->|Hne].
      + rewrite lookup_insert_eq in Hk. by injection Hk as <-.
      + rewrite lookup_insert_ne in Hk by done. by destruct (Hfree k u Hk).
    - apply user_named_None in Hu.
      destruct (Hu (user_seq (db w)) new); [|done]. cbn. by rewrite lookup_insert_eq. }
  rewrite Hnamed. cbn. by rewrite Hcheck.
Qed.

Lemma register_then_login_witness :
  serve_session (login toy_check) (credentials "alice" "hunter2") alice_registered =
  ((Redirect "index" [], LogIn 1), alice_registered).
Proof.
  apply (register_then_login toy_hash toy_check (credentials "alice" "hunter2")
           (credentials "alice" "hunter2") empty_world "alice" "hunter2").
  - reflexivity.
  - reflexivity.
  - reflexivity.
  - reflexivity.
  - reflexivity.
  - apply (bool_decide_unpack _). vm_compute. exact I.
  - vm_compute. discriminate.
  - vm_compute. discriminate.
  - reflexivity.
  - reflexivity.
  - reflexivity.
  - reflexivity.
Defined.

(** X22. After [user_delete], the cookie of the deleted account opens
    nothing: the protected views answer 401, [index] redirects to the login
    page, and a login with the deleted username is rejected. *)
Theorem deleted_account_is_locked_out (word_dict : Dict)
    (text_to_image : string -> option (list Byte.byte))
    (check_password_hash : string -> option string -> Res bool)
    (w : World) (req req' : Request) (current_user : User.t) :
  store_ok (db w) ->
  method req = "POST" ->
  session_user_id req = Some (User.id current_user) ->
  users (db w) !! User.id current_user = Some current_user ->
  session_user_id req' = Some (User.id current_user) ->
  let w' := (serve user_delete req w).2 in
  anonymous req' w' /\
  (method req' = "POST" ->
   serve posts_view req' w' = (ErrorPage 401 "Unauthorized", w') /\
   serve (newimage word_dict text_to_image) req' w' =
     (ErrorPage 401 "Unauthorized", w') /\
   serve confirm_image req' w' = (ErrorPage 401 "Unauthorized", w')) /\
  (method req' = "GET" ->
   serve_list index req' w' = (ListRedirect "login", w') /\
   serve_list edit req' w' = (ListError 401 "Unauthorized", w')) /\
  (method req' = "POST" ->
   multidict_get (form req') "username" = Some (User.username current_user) ->
   serve_session (login check_password_hash) req' w' =
   ((Render "login.html" [("error", VStr login_failed_message)], KeepSession), w')).
Proof.
  intros (_ & _ & Huniq & _) Hm Hs Hu Hs' w'.
  assert (Hw' : w' =
    let t := account_deleted_tables (User.id current_user) (db w) in
    mkWorld t (t :: commit_log w) (files w)
      (flashes w ++ ["アカウントと投稿がすべて削除されました。"]) (clock w)).
  { subst w'. by rewrite (user_delete_result w req current_user Hm Hs Hu). }
  assert (Hanon : anonymous req' w').
  { unfold anonymous. rewrite Hs', Hw'. cbn. apply lookup_delete_eq. }
  split; [done|]. split; [|split].
  - intros Hm'. repeat split; apply serve_refused; try done;
      rewrite Hm'; apply (bool_decide_unpack _); exact I.
  - intros Hm'. split.
    + apply index_anonymous; [by apply get_allowed | done].
    + apply (serve_to_refused ListError); [by apply get_allowed | done].
  - intros Hm' Hn. rewrite serve_login by done. rewrite Hn. cbn [default]. unfold id.
    assert (Hfree : name_is_free (User.username current_user) (db w')).
    { rewrite Hw'. intros k u Hk Hname. cbn in Hk.
      apply lookup_delete_Some in Hk as [Hne Hk].
      apply Hne. symmetry. by apply (Huniq k u Hk _ current_user Hu). }
    apply user_named_None in Hfree. by rewrite Hfree.
Qed.

Lemma deleted_account_is_locked_out_witness :
  let w' := (serve user_delete bob_request world2).2 in
  anonymous bob_visits w' /\
  (method bob_visits = "POST" ->
   serve posts_view bob_visits w' = (ErrorPage 401 "Unauthorized", w') /\
   serve (newimage lexicon image_ok) bob_visits w' =
     (ErrorPage 401 "Unauthorized", w') /\
   serve confirm_image bob_visits w' = (ErrorPage 401 "Unauthorized", w')) /\
  (method bob_visits = "GET" ->
   serve_list index bob_visits w' = (ListRedirect "login", w') /\
   serve_list edit bob_visits w' = (ListError 401 "Unauthorized", w')) /\
  (method bob_visits = "POST" ->
   multidict_get (form bob_visits) "username" = Some (User.username bob) ->
   serve_session (login toy_check) bob_visits w' =
   ((Render "login.html" [("error", VStr login_failed_message)], KeepSession), w')).
Proof.
  apply (deleted_account_is_locked_out lexicon image_ok toy_check world2
           bob_request bob_visits bob).
  - store_ok_by_evaluation.
  - reflexivity.
  - reflexivity.
  - vm_compute. reflexivity.
  - reflexivity.
Defined.

(** ** What every reachable store satisfies *)

Lemma store_ok_new_post (t : Tables) (content : string) (now uid : Z) :
  store_ok t -> is_Some (users t !! uid) ->
  store_ok (tables_with_new_post t content now uid).
Proof.
  intros (Hok & Hfresh & Huniq & Hown) Hu.
  split; [by apply tables_ok_new_post|]. split; [done|]. split; [done|].
  intros k p. cbn. destruct (decide (k = post_seq t)) as [->|Hne].
  - rewrite lookup_insert_eq. by intros [= <-].
  - rewrite lookup_insert_ne by done. apply Hown.
Qed.

Lemma store_ok_set_image_path (t : Tables) (pid : Z) (path : option string) :
  store_ok t ->
  store_ok (set_posts (alter (Post.with_image_path path) pid) t).
Proof.
  intros (Hok & Hfresh & Huniq & Hown).
  split; [by apply tables_ok_set_image_path|]. split; [done|]. split; [done|].
  intros k p. cbn. destruct (decide (k = pid)) as [->|Hne].
  - rewrite lookup_alter_eq. destruct (posts t !! pid) as [q|] eqn:Hq; [|done].
    intros [= <-]. by apply Hown in Hq.
  - rewrite lookup_alter_ne by done. apply Hown.
Qed.

Lemma store_ok_delete_post (t : Tables) (pid : Z) :
  store_ok t -> store_ok (set_posts (delete pid) t).
Proof.
  intros (Hok & Hfresh & Huniq & Hown).
  split; [by apply tables_ok_delete_post|]. split; [done|]. split; [done|].
  intros k p. cbn. intros H. apply lookup_delete_Some in H as [_ H]. by apply Hown in H.
Qed.

Lemma store_ok_account_deleted (t : Tables) (uid : Z) :
  store_ok t -> store_ok (account_deleted_tables uid t).
Proof.
  intros (Hok & Hfresh & Huniq & Hown).
  split; [by apply tables_ok_account_deleted|]. split; [|split].
  - intros k u. cbn. intros H. apply lookup_delete_Some in H as [_ H]. by apply Hfresh in H.
  - intros k1 u1 H1 k2 u2 H2. cbn in H1, H2.
    apply lookup_delete_Some in H1 as [_ H1], H2 as [_ H2]. by apply (Huniq k1 u1 H1 k2 u2).
  - intros k p. cbn. intros H. apply map_lookup_filter_Some in H as [H Hne]. cbn in Hne.
    rewrite lookup_delete_ne by done. by apply Hown in H.
Qed.

Lemma store_ok_new_user (t : Tables) (name password : string) :
  store_ok t -> name_is_free name t ->
  store_ok (tables_with_new_user t name password).
Proof.
  intros ([Hposts Husers] & Hfresh & Huniq & Hown) Hfree.
  assert (Hnew : users t !! user_seq t = None).
  { destruct (users t !! user_seq t) as [u|] eqn:Hu; [|done].
    apply Hfresh in Hu. lia. }
  split; [split|split; [|split]].
  - done.
  - intros k u. cbn. destruct (decide (k = user_seq t)) as [->|Hne].
    + rewrite lookup_insert_eq. by intros [= <-].
    + rewrite lookup_insert_ne by done. apply Husers.
  - intros k u. cbn. destruct (decide (k = user_seq t)) as [->|Hne].
    + intros _. lia.
    + rewrite lookup_insert_ne by done. intros H. apply Hfresh in H. lia.
  - intros k1 u1 H1 k2 u2 H2 Hname. cbn in H1, H2.
    destruct (decide (k1 = user_seq t)) as [->|Hne1],
             (decide (k2 = user_seq t)) as [->|Hne2]; [done|..].
    + rewrite lookup_insert_eq in H1. rewrite lookup_insert_ne in H2 by done.
      injection H1 as <-. cbn in Hname. by destruct (Hfree k2 u2 H2).
    + rewrite lookup_insert_eq in H2. rewrite lookup_insert_ne in H1 by done.
      injection H2 as <-. cbn in Hname. by destruct (Hfree k1 u1 H1).
    + rewrite lookup_insert_ne in H1, H2 by done. by apply (Huniq k1 u1 H1 k2 u2).
  - intros k p Hp. cbn in *. specialize (Hown k p Hp). cbn in Hown.
    destruct (decide (Post.user_id p = user_seq t)) as [->|Hne].
    + by rewrite lookup_insert_eq.
    + by rewrite lookup_insert_ne.
Qed.

Ltac enter_view_keeping_user :=
  unfold serve, route, login_required;
  case_bool_decide; [|done];
  destruct (session_user_id _) as [?uid|]; [|done];
  unfold bind, load_user, gets; cbn;
  destruct (users _ !! _) as [?u|] eqn:?Hu; [|done].

Lemma owner_stored (t : Tables) (uid : Z) (u : User.t) :
  store_ok t -> users t !! uid = Some u -> is_Some (users t !! User.id u).
Proof.
  intros ([_ Husers] & _) Hu. by rewrite (Husers _ _ Hu), Hu.
Qed.

Lemma posts_view_store_ok (req : Request) (w : World) :
  store_ok (db w) -> store_ok (db (serve posts_view req w).2).
Proof.
  intros Hok. unfold posts_view. enter_view_keeping_user.
  unfold posts_body, form_item, bind.
  destruct (multidict_get (form req) "diary_entry") as [c|]; [|done]. cbn.
  case_bool_decide; [done|]. cbn.
  apply (store_ok_new_post (db w)); [done | eapply owner_stored; eassumption].
Qed.

Lemma newimage_store_ok (word_dict : Dict)
    (text_to_image : string -> option (list Byte.byte)) (req : Request) (w : World) :
  store_ok (db w) ->
  store_ok (db (serve (newimage word_dict text_to_image) req w).2).
Proof.
  intros Hok. unfold newimage. enter_view_keeping_user.
  unfold newimage_body, bind.
  destruct (opt_truthy (multidict_get (args req) "post_id")).
  - unfold Post_query_get_str.
    destruct (int_of_str _) as [pid|]; [|done].
    unfold Post_query_get, gets. cbn.
    destruct (posts (db w) !! pid) as [post|]; [|done]. cbn.
    destruct (bytes_truthy _); done.
  - destruct (multidict_get (form req) "content") as [c|]; [|done]. cbn.
    destruct (bytes_truthy _); cbn;
      (apply (store_ok_new_post (db w)); [done | eapply owner_stored; eassumption]).
Qed.

Lemma confirm_image_store_ok (req : Request) (w : World) :
  store_ok (db w) -> store_ok (db (serve confirm_image req w).2).
Proof.
  intros Hok. unfold confirm_image. enter_view_keeping_user.
  unfold confirm_image_body, form_item, bind.
  destruct (multidict_get (form req) "action") as [a|]; [|done]. cbn.
  destruct (String.eqb a "redo").
  { destruct (multidict_get (form req) "content"); done. }
  destruct (multidict_get (form req) "post_id") as [s|]; [|done]. cbn.
  unfold py_int. destruct (int_of_str s) as [pid|]; [|done]. cbn.
  unfold Post_query_get_or_404, Post_query_get, bind, gets. cbn.
  destruct (posts (db w) !! pid) as [post|]; [|done]. cbn.
  unfold os_rename, bind, gets. cbn.
  destruct (files w !! _); [|done]. cbn.
  by apply store_ok_set_image_path.
Qed.

Lemma delete_view_store_ok (pid : Z) (req : Request) (w : World) :
  store_ok (db w) -> store_ok (db (serve (delete_view pid) req w).2).
Proof.
  intros Hok. unfold delete_view. enter_view_keeping_user.
  unfold delete_body, Post_query_get_or_404, Post_query_get, bind, gets. cbn.
  destruct (posts (db w) !! pid) as [post|]; [|done]. cbn.
  destruct (Post.user_id post =? User.id u); cbn; [|done].
  by apply store_ok_delete_post.
Qed.

Lemma user_delete_store_ok (req : Request) (w : World) :
  store_ok (db w) -> store_ok (db (serve user_delete req w).2).
Proof.
  intros Hok. unfold user_delete. enter_view_keeping_user.
  unfold user_delete_body, bind. cbn.
  unfold session_commit. cbn. unfold user_has_posts. cbn.
  rewrite no_posts_left. cbn.
  by apply (store_ok_account_deleted (db w)).
Qed.

Lemma newuser_store_ok (generate_password_hash : string -> string)
    (req : Request) (w : World) :
  store_ok (db w) -> store_ok (db (serve (newuser generate_password_hash) req w).2).
Proof.
  intros Hok. unfold newuser, serve, route. case_bool_decide; [|done].
  unfold newuser_body, bind.
  destruct (String.eqb (method req) "POST"); [|done].
  destruct (multidict_get (form req) "username") as [name|]; [|done]. cbn.
  destruct (str_truthy name); [|done]. cbn.
  destruct (opt_truthy (multidict_get (form req) "password")); [|done].
  cbn. case_bool_decide; [done|].
  unfold session_add_user. cbn.
  destruct (_ || _); [done|].
  case_bool_decide as Hfree; [done|]. cbn.
  apply (store_ok_new_user (db w)); [done|].
  apply name_is_free_filter. exact Hfree.
Qed.

Lemma app_step_store_ok (word_dict : Dict) (w w' : World) :
  AppStep word_dict w w' -> store_ok (db w) -> store_ok (db w').
Proof.
  intros [w1 w2 Hstep|h req w1|chk req w1|req w1|req w1|req w1|req w1] Hok.
  - destruct Hstep as [req w0|tti req w0|req w0|pid req w0|req w0].
    + by apply posts_view_store_ok.
    + by apply newimage_store_ok.
    + by apply confirm_image_store_ok.
    + by apply delete_view_store_ok.
    + by apply user_delete_store_ok.
  - by apply newuser_store_ok.
  - by rewrite login_reads.
  - by rewrite logout_reads.
  - by rewrite index_reads.
  - by rewrite edit_reads.
  - by rewrite user_delete_confirm_reads.
Qed.

(** X23. Whatever requests are served, by whatever view, a well-formed
    store stays well formed: rows sit under their own keys, both sequences
    are ahead of every key in use (no key is handed out twice), usernames
    stay unique and every post belongs to a stored user. *)
Theorem reachable_store_ok (word_dict : Dict) (w0 w : World) :
  AppReachable word_dict w0 w -> store_ok (db w0) -> store_ok (db w).
Proof.
  induction 1 as [|w1 w2 w3 Hstep _ IH]; [done|].
  intros Hok. apply IH. by apply (app_step_store_ok word_dict w1).
Qed.

Lemma reachable_store_ok_witness : store_ok (db alice_registered).
Proof.
  apply (reachable_store_ok lexicon empty_world alice_registered).
  - eapply rtc_l; [|apply rtc_refl].
    apply (app_newuser lexicon toy_hash (credentials "alice" "hunter2") empty_world).
  - store_ok_by_evaluation.
Defined.

(** ** Files of other users *)

Lemma not_own_path (uid other : Z) (path : string) :
  uid <> other ->
  path = tmp_path_of other \/ (exists p, path = final_path_of other p) ->
  path <> tmp_path_of uid /\ forall p, path <> final_path_of uid p.
Proof.
  intros Hne [->|[p' ->]]; split.
  - intros H. by apply tmp_path_of_inj in H.
  - intros p. apply tmp_path_ne_any_final_path.
  - intros H. symmetry in H. by apply tmp_path_ne_any_final_path in H.
  - intros p H. by apply final_path_of_inj in H as [? _].
Qed.

Lemma newimage_other_files (word_dict : Dict)
    (text_to_image : string -> option (list Byte.byte))
    (req : Request) (w : World) (other : Z) (path : string) :
  tables_ok (db w) ->
  session_user_id req <> Some other ->
  path = tmp_path_of other \/ (exists p, path = final_path_of other p) ->
  files (serve (newimage word_dict text_to_image) req w).2 !! path = files w !! path.
Proof.
  intros [_ Husers] Hs Hpath. unfold newimage, serve, route, login_required.
  case_bool_decide; [|done].
  destruct (session_user_id req) as [uid|]; [|done].
  unfold bind, load_user, gets. cbn.
  destruct (users (db w) !! uid) as [u|] eqn:Hu; [|done].
  assert (Hid : User.id u = uid) by by apply Husers in Hu.
  destruct (not_own_path uid other path) as [Htmp _]; [congruence | done |].
  unfold newimage_body, bind.
  destruct (opt_truthy (multidict_get (args req) "post_id")).
  - unfold Post_query_get_str.
    destruct (int_of_str _) as [pid|]; [|done].
    unfold Post_query_get, gets. cbn.
    destruct (posts (db w) !! pid) as [post|]; [|done]. cbn.
    destruct (bytes_truthy _); cbn; [|done].
    rewrite Hid. by rewrite lookup_insert_ne.
  - destruct (multidict_get (form req) "content") as [c|]; [|done]. cbn.
    destruct (bytes_truthy _); cbn; [|done].
    rewrite Hid. by rewrite lookup_insert_ne.
Qed.

Lemma confirm_image_other_files (req : Request) (w : World) (other : Z)
    (path : string) :
  tables_ok (db w) ->
  session_user_id req <> Some other ->
  path = tmp_path_of other \/ (exists p, path = final_path_of other p) ->
  files (serve confirm_image req w).2 !! path = files w !! path.
Proof.
  intros [_ Husers] Hs Hpath. unfold confirm_image, serve, route, login_required.
  case_bool_decide; [|done].
  destruct (session_user_id req) as [uid|]; [|done].
  unfold bind, load_user, gets. cbn.
  destruct (users (db w) !! uid) as [u|] eqn:Hu; [|done].
  assert (Hid : User.id u = uid) by by apply Husers in Hu.
  destruct (not_own_path uid other path) as [Htmp Hfinal]; [congruence | done |].
  unfold confirm_image_body, form_item, bind.
  destruct (multidict_get (form req) "action") as [a|]; [|done]. cbn.
  destruct (String.eqb a "redo").
  { destruct (multidict_get (form req) "content"); done. }
  destruct (multidict_get (form req) "post_id") as [s|]; [|done]. cbn.
  unfold py_int. destruct (int_of_str s) as [pid|]; [|done]. cbn.
  unfold Post_query_get_or_404, Post_query_get, bind, gets. cbn.
  destruct (posts (db w) !! pid) as [post|]; [|done]. cbn.
  unfold os_rename, bind, gets. cbn.
  destruct (files w !! _); [|done]. cbn.
  rewrite Hid. rewrite lookup_insert_ne by (intros Heq; by apply (Hfinal (Post.id post))).
  by rewrite lookup_delete_ne.
Qed.

Lemma posts_view_files (req : Request) (w : World) :
  files (serve posts_view req w).2 = files w.
Proof.
  unfold posts_view. enter_view.
  unfold posts_body, form_item, bind.
  destruct (multidict_get (form req) "diary_entry") as [c|]; [|done]. cbn.
  case_bool_decide; done.
Qed.

Lemma delete_view_files (pid : Z) (req : Request) (w : World) :
  files (serve (delete_view pid) req w).2 = files w.
Proof.
  unfold delete_view. enter_view.
  unfold delete_body, Post_query_get_or_404, Post_query_get, bind, gets. cbn.
  destruct (posts (db w) !! pid) as [post|]; [|done]. cbn.
  destruct (Post.user_id post =? User.id u); cbn; done.
Qed.

Lemma user_delete_files (req : Request) (w : World) :
  files (serve user_delete req w).2 = files w.
Proof.
  unfold user_delete. enter_view.
  unfold user_delete_body, bind. cbn.
  unfold session_commit. cbn. unfold user_has_posts. cbn.
  rewrite no_posts_left. cbn. done.
Qed.

(** X24. A request never touches the image files of another user: the
    draft path and the permanent paths named after a user other than the
    one in the session hold after [newimage] and [confirm_image] what they
    held before, and [posts], [delete] and [user_delete] change no file at
    all. *)
Theorem requests_leave_other_users_files (word_dict : Dict)
    (text_to_image : string -> option (list Byte.byte))
    (post_id : Z) (req : Request) (w : World) (other : Z) (path : string) :
  tables_ok (db w) ->
  session_user_id req <> Some other ->
  path = tmp_path_of other \/ (exists p, path = final_path_of other p) ->
  files (serve (newimage word_dict text_to_image) req w).2 !! path = files w !! path /\
  files (serve confirm_image req w).2 !! path = files w !! path /\
  files (serve posts_view req w).2 = files w /\
  files (serve (delete_view post_id) req w).2 = files w /\
  files (serve user_delete req w).2 = files w.
Proof.
  intros Hok Hs Hpath.
  split; [by apply (newimage_other_files _ _ _ _ other)|].
  split; [by apply (confirm_image_other_files _ _ other)|].
  split; [apply posts_view_files|].
  split; [apply delete_view_files | apply user_delete_files].
Qed.

Lemma requests_leave_other_users_files_witness :
  files (serve (newimage lexicon image_ok') bob_drafts world2).2 !! tmp_path_of 1 =
    files world2 !! tmp_path_of 1 /\
  files (serve confirm_image bob_drafts world2).2 !! tmp_path_of 1 =
    files world2 !! tmp_path_of 1 /\
  files (serve posts_view bob_drafts world2).2 = files world2 /\
  files (serve (delete_view 0) bob_drafts world2).2 = files world2 /\
  files (serve user_delete bob_drafts world2).2 = files world2.
Proof.
  apply (requests_leave_other_users_files lexicon image_ok' 0 bob_drafts world2 1).
  - tables_ok_by_evaluation.
  - discriminate.
  - by left.
Defined.
